(** * Item & User API: a shallow embedding of the service and its checked properties

    The development follows the layout of the Python sources:

    - [Passlib]       the interface of the password-hashing library (external);
    - [Security]      security.py;
    - [Main]          main.py: the in-memory item list, the in-memory user
                      dictionary and the HTTP handlers over them;
    - [Py]            the Python values an ORM instance and a keyword
                      dictionary hold;
    - [Models]        models.py: the [users] row;
    - [Database]      the part of a SQLAlchemy session the repository relies
                      on, as a state-and-error monad over a world that also
                      records the calls made;
    - [Repositories]  repositories.py: [UserRepository];
    - [Services]      services.py: [UserService];
    - [Fixture]       a hasher and small stores on which the definitions are
                      evaluated.

    Python [int] is [Z].  A Python [str] is a Rocq [string] read character by
    character (code points U+0000 to U+00FF); on that range the regular
    expression class [\d] matches exactly the ten characters 0 to 9.  *)

From Stdlib Require Import ZArith String Ascii List Lia Bool DecimalString.
From stdpp Require Import base option list gmap strings.

Local Open Scope string_scope.
Local Open Scope list_scope.
Local Open Scope Z_scope.

(** ** The hashing library

    [CryptContext(schemes=["bcrypt"], deprecated="auto")] is not part of the
    repository.  Its two entry points are taken as they are used: [hash]
    is given the salt it draws and returns a digest; [verify] either answers
    or raises, which is [None]. *)

Module Passlib.

Record CryptContext : Type := {
    hash : nat -> string -> string;
    verify : string -> string -> option bool
  }.

End Passlib.

(** ** security.py *)

Module Security.
Import Passlib.

Definition verify_password (pwd_context : CryptContext)
      (plain_password hashed_password : string) : option bool :=
    verify pwd_context plain_password hashed_password.

Definition get_password_hash (pwd_context : CryptContext)
      (salt : nat) (password : string) : string :=
    hash pwd_context salt password.

End Security.

(** ** HTTP outcomes of a handler *)

Record HTTPException : Type := {
  status_code : Z;
  detail : string;
  headers : list (string * string)
}.

(** A handler returns a value, raises an [HTTPException], or lets another
    exception escape (the framework then answers 500).  A body that fails
    request validation never reaches the handler (the framework answers 422
    with the validator's message). *)
Inductive outcome (A : Type) : Type :=
  | Returned (a : A)
  | Raised (e : HTTPException)
  | Invalid (msg : string)
  | Uncaught.

Arguments Returned {A} a.
Arguments Raised {A} e.
Arguments Invalid {A} msg.
Arguments Uncaught {A}.

Definition HTTP_201_CREATED : Z := 201.
Definition HTTP_204_NO_CONTENT : Z := 204.
Definition HTTP_400_BAD_REQUEST : Z := 400.
Definition HTTP_401_UNAUTHORIZED : Z := 401.
Definition HTTP_404_NOT_FOUND : Z := 404.
Definition HTTP_422_UNPROCESSABLE_ENTITY : Z := 422.
Definition HTTP_500_INTERNAL_SERVER_ERROR : Z := 500.

(** The status line of the response, given the success status declared on
    the route. *)
Definition response_status {A : Type} (success : Z) (r : outcome A) : Z :=
  match r with
  | Returned _ => success
  | Raised e => status_code e
  | Invalid _ => HTTP_422_UNPROCESSABLE_ENTITY
  | Uncaught => HTTP_500_INTERNAL_SERVER_ERROR
  end.

(** ** main.py *)

Module Main.
Import Passlib.

  (** *** Data models *)

Module Item.
Record t : Type := { id : Z; name : string; description : option string }.
End Item.

Module CreateItem.
Record t : Type := { name : string; description : option string }.
End CreateItem.

Module UserBase.
Record t : Type := {
      username : string;
      email : option string;
      full_name : option string
    }.
End UserBase.

Module UserCreate.
Record t : Type := {
      username : string;
      email : option string;
      full_name : option string;
      password : string
    }.
End UserCreate.

Module UserLogin.
Record t : Type := { username : string; password : string }.
End UserLogin.

Module UserInDB.
Record t : Type := {
      username : string;
      email : option string;
      full_name : option string;
      hashed_password : string
    }.
End UserInDB.

  (** *** The password validator of [UserCreate] *)

Definition code (c : ascii) : N := N_of_ascii c.

  (** [[A-Z]], [[a-z]] and [\d]. *)
Definition is_upper (c : ascii) : bool :=
    ((65 <=? code c) && (code c <=? 90))%N.
Definition is_lower (c : ascii) : bool :=
    ((97 <=? code c) && (code c <=? 122))%N.
Definition is_digit (c : ascii) : bool :=
    ((48 <=? code c) && (code c <=? 57))%N.

  (** [re.search] of a one-character class: some character is in it. *)
Definition re_search (cls : ascii -> bool) (v : string) : bool :=
    existsb cls (list_ascii_of_string v).

Inductive validated (A : Type) : Type :=
    | Valid (a : A)
    | ValueError (msg : string).
Arguments Valid {A} a.
Arguments ValueError {A} msg.

Definition password_complexity (v : string) : validated string :=
    if (String.length v <? 8)%nat then
      ValueError "Password must be at least 8 characters long"
    else if negb (re_search is_upper v) then
      ValueError "Password must contain at least one uppercase letter"
    else if negb (re_search is_lower v) then
      ValueError "Password must contain at least one lowercase letter"
    else if negb (re_search is_digit v) then
      ValueError "Password must contain at least one digit"
    else Valid v.

  (** *** In-memory databases *)

Definition items_db : list Item.t := [
    {| Item.id := 1; Item.name := "Laptop";
       Item.description := Some "High-performance laptop" |};
    {| Item.id := 2; Item.name := "Mouse";
       Item.description := Some "Wireless optical mouse" |};
    {| Item.id := 3; Item.name := "Keyboard";
       Item.description := Some "Mechanical keyboard" |}
  ].

Definition users_db : gmap string UserInDB.t := ∅.

  (** *** Utility functions *)

  (** Python's [max] over a non-empty sequence of integers. *)
Definition py_max (x : Z) (xs : list Z) : Z := fold_left Z.max xs x.

Definition get_next_item_id (items_db : list Item.t) : Z :=
    match map Item.id items_db with
    | [] => 1
    | x :: xs => py_max x xs + 1
    end.

Definition verify_password (pwd_context : CryptContext)
      (plain_password hashed_password : string) : option bool :=
    verify pwd_context plain_password hashed_password.

Definition get_password_hash (pwd_context : CryptContext)
      (salt : nat) (password : string) : string :=
    hash pwd_context salt password.

Definition get_user (users_db : gmap string UserInDB.t)
      (username : string) : option UserInDB.t :=
    users_db !! username.

Definition create_user_in_db (pwd_context : CryptContext) (salt : nat)
      (user : UserCreate.t) (users_db : gmap string UserInDB.t)
      : UserInDB.t * gmap string UserInDB.t :=
    let hashed_password :=
      get_password_hash pwd_context salt (UserCreate.password user) in
    let user_in_db :=
      {| UserInDB.username := UserCreate.username user;
         UserInDB.email := UserCreate.email user;
         UserInDB.full_name := UserCreate.full_name user;
         UserInDB.hashed_password := hashed_password |} in
    (user_in_db, <[UserCreate.username user := user_in_db]> users_db).

  (** *** Item endpoints *)

Definition not_found : HTTPException :=
    {| status_code := HTTP_404_NOT_FOUND;
       detail := "Item not found";
       headers := [] |}.

Definition browse_items (items_db : list Item.t) : outcome (list Item.t) :=
    Returned items_db.

  (** [next((item for item in items_db if item.id == item_id), None)] *)
Definition read_item (item_id : Z) (items_db : list Item.t)
      : outcome Item.t :=
    match list_find (λ item, Item.id item = item_id) items_db with
    | None => Raised not_found
    | Some (_, item) => Returned item
    end.

Definition add_item (item_data : CreateItem.t) (items_db : list Item.t)
      : outcome Item.t * list Item.t :=
    let new_id := get_next_item_id items_db in
    let new_item :=
      {| Item.id := new_id;
         Item.name := CreateItem.name item_data;
         Item.description := CreateItem.description item_data |} in
    (Returned new_item, items_db ++ [new_item]).

  (** The index comes from a scan of the list, so the assignment at
      [item_index] is always in range. *)
Definition edit_item (item_id : Z) (updated_item_data : CreateItem.t)
      (items_db : list Item.t) : outcome Item.t * list Item.t :=
    match list_find (λ item, Item.id item = item_id) items_db with
    | None => (Raised not_found, items_db)
    | Some (item_index, _) =>
        let updated_item :=
          {| Item.id := item_id;
             Item.name := CreateItem.name updated_item_data;
             Item.description := CreateItem.description updated_item_data |} in
        (Returned updated_item, <[item_index := updated_item]> items_db)
    end.

Definition delete_item (item_id : Z) (items_db : list Item.t)
      : outcome unit * list Item.t :=
    match list_find (λ item, Item.id item = item_id) items_db with
    | None => (Raised not_found, items_db)
    | Some (item_index, _) => (Returned tt, delete item_index items_db)
    end.

  (** *** User endpoints *)

Definition register_user (pwd_context : CryptContext) (salt : nat)
      (user_data : UserCreate.t) (users_db : gmap string UserInDB.t)
      : outcome UserBase.t * gmap string UserInDB.t :=
    match get_user users_db (UserCreate.username user_data) with
    | Some _ =>
        (Raised {| status_code := HTTP_400_BAD_REQUEST;
                   detail := "Username already registered";
                   headers := [] |},
         users_db)
    | None =>
        let '(created_user, users_db') :=
          create_user_in_db pwd_context salt user_data users_db in
        (Returned {| UserBase.username := UserInDB.username created_user;
                     UserBase.email := UserInDB.email created_user;
                     UserBase.full_name := UserInDB.full_name created_user |},
         users_db')
    end.

  (** [POST /register]: the body is validated as a [UserCreate] (which runs
      [password_complexity]) before [register_user] is called. *)
Definition post_register (pwd_context : CryptContext) (salt : nat)
      (body : UserCreate.t) (users_db : gmap string UserInDB.t)
      : outcome UserBase.t * gmap string UserInDB.t :=
    match password_complexity (UserCreate.password body) with
    | ValueError msg => (Invalid msg, users_db)
    | Valid _ => register_user pwd_context salt body users_db
    end.

Definition bad_credentials : HTTPException :=
    {| status_code := HTTP_401_UNAUTHORIZED;
       detail := "Incorrect username or password";
       headers := [("WWW-Authenticate", "Bearer")] |}.

Definition login_user (pwd_context : CryptContext)
      (user_credentials : UserLogin.t) (users_db : gmap string UserInDB.t)
      : outcome string :=
    match get_user users_db (UserLogin.username user_credentials) with
    | None => Raised bad_credentials
    | Some db_user =>
        match verify_password pwd_context
                (UserLogin.password user_credentials)
                (UserInDB.hashed_password db_user) with
        | None => Uncaught
        | Some false => Raised bad_credentials
        | Some true =>
            Returned ("Login successful for user: "
                        +:+ UserInDB.username db_user)
        end
    end.

End Main.

(** ** Python values held by an ORM instance

    The attributes of a [User] instance and the values of a keyword-argument
    dictionary are Python objects.  A [datetime] is kept as its printed
    form, which is all the code does with one. *)

Module Py.

Inductive value : Type :=
  | PyNone
  | PyBool (b : bool)
  | PyInt (n : Z)
  | PyStr (s : string)
  | PyDateTime (text : string).

#[global] Instance value_eq_dec : EqDecision value.
Proof. solve_decision. Defined.

(** [value is not None] *)
Definition is_not_None (v : value) : bool :=
  match v with PyNone => false | _ => true end.

(** The truth value of an object in a condition. *)
Definition truthy (v : value) : bool :=
  match v with
  | PyNone => false
  | PyBool b => b
  | PyInt n => negb (n =? 0)
  | PyStr s => negb (s =? "")%string
  | PyDateTime _ => true
  end.

(** [a == b]; [bool] is a subclass of [int], so [True == 1]. *)
Definition eq (a b : value) : bool :=
  match a, b with
  | PyNone, PyNone => true
  | PyBool x, PyBool y => Bool.eqb x y
  | PyBool x, PyInt y => Z.b2z x =? y
  | PyInt x, PyBool y => x =? Z.b2z y
  | PyInt x, PyInt y => x =? y
  | PyStr x, PyStr y => (x =? y)%string
  | PyDateTime x, PyDateTime y => (x =? y)%string
  | _, _ => false
  end.

(** [a != b] *)
Definition ne (a b : value) : bool := negb (eq a b).

(** [str(v)], as an f-string interpolates it. *)
Definition str (v : value) : string :=
  match v with
  | PyNone => "None"
  | PyBool true => "True"
  | PyBool false => "False"
  | PyInt n => NilZero.string_of_int (Z.to_int n)
  | PyStr s => s
  | PyDateTime text => text
  end.

(** [kwargs.get(key)] on a dictionary given as its items in order; the keys
    of a dictionary are distinct. *)
Fixpoint get (kwargs : list (string * value)) (key : string) : value :=
  match kwargs with
  | [] => PyNone
  | (k, v) :: rest => if (k =? key)%string then v else get rest key
  end.

End Py.

(** ** models.py *)

Module Models.
Import Py.

Module User.

Record t : Type := {
  id : value;
  username : value;
  email : value;
  full_name : value;
  hashed_password : value;
  is_active : value;
  created_at : value;
  updated_at : value
}.

#[global] Instance t_eq_dec : EqDecision t.
Proof. solve_decision. Defined.

(** The mapped columns are the attributes [getattr] and [setattr] reach;
    the attributes an instance inherits from the ORM base class ([metadata],
    [registry] and the like) are not part of the row and are not modelled:
    a key is a column name or names no attribute. *)
Definition getattr (user : t) (key : string) : option value :=
  if (key =? "id")%string then Some (id user)
  else if (key =? "username")%string then Some (username user)
  else if (key =? "email")%string then Some (email user)
  else if (key =? "full_name")%string then Some (full_name user)
  else if (key =? "hashed_password")%string then Some (hashed_password user)
  else if (key =? "is_active")%string then Some (is_active user)
  else if (key =? "created_at")%string then Some (created_at user)
  else if (key =? "updated_at")%string then Some (updated_at user)
  else None.

Definition hasattr (user : t) (key : string) : bool :=
  match getattr user key with Some _ => true | None => false end.

Definition setattr (user : t) (key : string) (v : value) : t :=
  if (key =? "id")%string then
    {| id := v; username := username user; email := email user;
       full_name := full_name user; hashed_password := hashed_password user;
       is_active := is_active user; created_at := created_at user;
       updated_at := updated_at user |}
  else if (key =? "username")%string then
    {| id := id user; username := v; email := email user;
       full_name := full_name user; hashed_password := hashed_password user;
       is_active := is_active user; created_at := created_at user;
       updated_at := updated_at user |}
  else if (key =? "email")%string then
    {| id := id user; username := username user; email := v;
       full_name := full_name user; hashed_password := hashed_password user;
       is_active := is_active user; created_at := created_at user;
       updated_at := updated_at user |}
  else if (key =? "full_name")%string then
    {| id := id user; username := username user; email := email user;
       full_name := v; hashed_password := hashed_password user;
       is_active := is_active user; created_at := created_at user;
       updated_at := updated_at user |}
  else if (key =? "hashed_password")%string then
    {| id := id user; username := username user; email := email user;
       full_name := full_name user; hashed_password := v;
       is_active := is_active user; created_at := created_at user;
       updated_at := updated_at user |}
  else if (key =? "is_active")%string then
    {| id := id user; username := username user; email := email user;
       full_name := full_name user; hashed_password := hashed_password user;
       is_active := v; created_at := created_at user;
       updated_at := updated_at user |}
  else if (key =? "created_at")%string then
    {| id := id user; username := username user; email := email user;
       full_name := full_name user; hashed_password := hashed_password user;
       is_active := is_active user; created_at := v;
       updated_at := updated_at user |}
  else if (key =? "updated_at")%string then
    {| id := id user; username := username user; email := email user;
       full_name := full_name user; hashed_password := hashed_password user;
       is_active := is_active user; created_at := created_at user;
       updated_at := v |}
  else user.

End User.

End Models.

(** ** The session the repository talks to

    What the repository uses of a SQLAlchemy session over the [users] table:
    [query(User).filter(column == v).first()], [add], [delete], [commit] and
    [refresh].  The world also records, in order, every call made to the
    session and to the hasher, so that statements about what a function
    does not do (no hashing, no write, no further query) can be made. *)

Module Database.
Import Py Models.

Inductive exn : Type :=
  | ValueError (msg : string)
  | TypeError
  | IntegrityError
  | StaleDataError
  | InvalidRequestError.

Inductive result (A : Type) : Type :=
  | Ok (a : A)
  | Raise (e : exn).
Arguments Ok {A} a.
Arguments Raise {A} e.

Inductive event : Type :=
  | Select (column : string) (v : value)
  | HashPassword (password : value)
  | SessionAdd
  | SessionDelete
  | SessionCommit
  | SessionRefresh.

(** The unit of work: instances staged until the next commit. *)
Inductive change : Type :=
  | New (row : User.t)
  | Dirty (pk : value) (assignments : list (string * value))
  | Deleted (pk : value).

Record World : Type := {
  table : list User.t;      (* the committed rows, in storage order *)
  sequence : Z;             (* the next id the store assigns *)
  now : string;             (* the server's clock, printed *)
  entropy : nat -> nat;     (* the salts the hasher will draw *)
  drawn : nat;              (* how many it has drawn *)
  pending : list change;
  flushed : list value;     (* primary keys of the instances last flushed *)
  trace : list event
}.

Definition M (A : Type) : Type := World -> result A * World.

#[global] Instance M_ret : MRet M := λ A a w, (Ok a, w).

#[global] Instance M_bind : MBind M := λ A B f m w,
  match m w with
  | (Ok a, w') => f a w'
  | (Raise e, w') => (Raise e, w')
  end.

Definition raise {A : Type} (e : exn) : M A := λ w, (Raise e, w).

Definition reads {A : Type} (f : World -> A) : M A := λ w, (Ok (f w), w).

Definition effect {A : Type} (f : World -> result A * World) : M A := f.

(** The world after further calls were recorded, and nothing else. *)
Definition traced (w : World) (events : list event) : World :=
  {| table := table w; sequence := sequence w; now := now w;
     entropy := entropy w; drawn := drawn w; pending := pending w;
     flushed := flushed w; trace := trace w ++ events |}.

Definition log (e : event) : M unit := λ w, (Ok tt, traced w [e]).

(** [query(User).filter(User.column == v).first()]: the first row, in
    storage order, whose column holds the value [v].  The session is created
    with [autoflush=False], so a query never flushes. *)
Definition query_first (column : string) (v : value) : M (option User.t) :=
  log (Select column v);;
  reads (λ w,
    snd <$> list_find (λ u, User.getattr u column = Some v) (table w)).

(** Staging returns the position of the instance in the unit of work. *)
Definition stage (c : change) : M nat := λ w,
  (Ok (length (pending w)),
   {| table := table w; sequence := sequence w; now := now w;
      entropy := entropy w; drawn := drawn w; pending := pending w ++ [c];
      flushed := flushed w; trace := trace w |}).

Definition session_add (c : change) : M nat := log SessionAdd;; stage c.
Definition session_delete (c : change) : M nat := log SessionDelete;; stage c.

(** The values the store fills in on INSERT: the next id of the sequence
    and [server_default=func.now()] for [created_at]. *)
Definition insert_defaults (now : string) (sequence : Z) (row : User.t)
    : User.t :=
  {| User.id :=
       if is_not_None (User.id row) then User.id row else PyInt sequence;
     User.username := User.username row;
     User.email := User.email row;
     User.full_name := User.full_name row;
     User.hashed_password := User.hashed_password row;
     User.is_active := User.is_active row;
     User.created_at :=
       if is_not_None (User.created_at row) then User.created_at row
       else PyDateTime now;
     User.updated_at := User.updated_at row |}.

(** UPDATE sets the assigned columns, and [onupdate=func.now()] sets
    [updated_at] unless the statement assigns it. *)
Definition assign (row : User.t) (assignments : list (string * value))
    : User.t :=
  fold_left (λ r kv, User.setattr r kv.1 kv.2) assignments row.

Definition on_update (now : string) (assignments : list (string * value))
    (row : User.t) : User.t :=
  if existsb (λ kv, (kv.1 =? "updated_at")%string) assignments then row
  else User.setattr row "updated_at" (PyDateTime now).

Definition flush_one (now : string) (c : change)
    (st : list User.t * Z) : result (list User.t * Z * value) :=
  let '(rows, seq) := st in
  match c with
  | New row =>
      let row' := insert_defaults now seq row in
      Ok (rows ++ [row'], seq + 1, User.id row')
  | Dirty pk assignments =>
      match list_find (λ u, User.id u = pk) rows with
      | None => Raise StaleDataError
      | Some (i, row) =>
          let row' := on_update now assignments (assign row assignments) in
          Ok (<[i := row']> rows, seq, User.id row')
      end
  | Deleted pk =>
      match list_find (λ u, User.id u = pk) rows with
      | None => Raise StaleDataError
      | Some (i, _) => Ok (delete i rows, seq, pk)
      end
  end.

Fixpoint flush (now : string) (changes : list change)
    (st : list User.t * Z) (keys : list value)
    : result (list User.t * Z * list value) :=
  match changes with
  | [] => Ok (st, keys)
  | c :: rest =>
      match flush_one now c st with
      | Raise e => Raise e
      | Ok (rows, seq, key) => flush now rest (rows, seq) (keys ++ [key])
      end
  end.

(** The constraints of the table: primary key, the two unique columns and
    the NOT NULL columns. *)
Definition constraints_ok (rows : list User.t) : bool :=
  bool_decide (NoDup (User.id <$> rows))
  && bool_decide (NoDup (User.username <$> rows))
  && bool_decide (NoDup (User.email <$> rows))
  && forallb (λ u, is_not_None (User.id u)
                   && is_not_None (User.username u)
                   && is_not_None (User.email u)
                   && is_not_None (User.hashed_password u)) rows.

(** [commit]: the unit of work is written in one transaction; when a
    statement or a constraint fails nothing is written and the error
    escapes. *)
Definition commit : M unit :=
  log SessionCommit;;
  effect (λ w,
    match flush (now w) (pending w) (table w, sequence w) [] with
    | Raise e =>
        (Raise e,
         {| table := table w; sequence := sequence w; now := now w;
            entropy := entropy w; drawn := drawn w; pending := [];
            flushed := []; trace := trace w |})
    | Ok (rows, seq, keys) =>
        if constraints_ok rows then
          (Ok tt,
           {| table := rows; sequence := seq; now := now w;
              entropy := entropy w; drawn := drawn w; pending := [];
              flushed := keys; trace := trace w |})
        else
          (Raise IntegrityError,
           {| table := table w; sequence := sequence w; now := now w;
              entropy := entropy w; drawn := drawn w; pending := [];
              flushed := []; trace := trace w |})
    end).

(** [refresh(instance)]: the row of the instance is read again. *)
Definition refresh (instance : nat) : M User.t :=
  log SessionRefresh;;
  effect (λ w,
    match flushed w !! instance with
    | None => (Raise InvalidRequestError, w)
    | Some key =>
        match list_find (λ u, User.id u = key) (table w) with
        | None => (Raise InvalidRequestError, w)
        | Some (_, row) => (Ok row, w)
        end
    end).

End Database.

(** ** repositories.py *)

Module Repositories.
Import Passlib Py Models Database.

Module UserRepository.

(** [pwd_context.hash(password)]; the library hashes a [str]. *)
Definition _hash_password (pwd_context : CryptContext) (password : value)
    : M string :=
  log (HashPassword password);;
  match password with
  | PyStr s =>
      effect (λ w,
        (Ok (hash pwd_context (entropy w (drawn w)) s),
         {| table := table w; sequence := sequence w; now := now w;
            entropy := entropy w; drawn := S (drawn w);
            pending := pending w; flushed := flushed w;
            trace := trace w |}))
  | _ => raise TypeError
  end.

Definition add (pwd_context : CryptContext)
    (username email password : string) (full_name : option string)
    (is_active : bool) : M User.t :=
  hashed_password ← _hash_password pwd_context (PyStr password);
  let db_user :=
    {| User.id := PyNone;
       User.username := PyStr username;
       User.email := PyStr email;
       User.hashed_password := PyStr hashed_password;
       User.full_name := from_option PyStr PyNone full_name;
       User.is_active := PyBool is_active;
       User.created_at := PyNone;
       User.updated_at := PyNone |} in
  instance ← session_add (New db_user);
  commit;;
  refresh instance.

Definition get_by_id (user_id : Z) : M (option User.t) :=
  query_first "id" (PyInt user_id).

Definition get_by_username (username : value) : M (option User.t) :=
  query_first "username" username.

Definition get_by_email (email : value) : M (option User.t) :=
  query_first "email" email.

(** The state of the loop of [update]: the instance as modified so far,
    the [updated] flag, and the attributes the session has seen change. *)
Record progress : Type := {
  user : User.t;
  updated : bool;
  assignments : list (string * value)
}.

Definition set_attribute (st : progress) (key : string) (v : value)
    : progress :=
  {| user := User.setattr (user st) key v;
     updated := true;
     assignments := assignments st ++ [(key, v)] |}.

(** One iteration of [for key, value in kwargs.items()]. *)
Definition update_step (pwd_context : CryptContext) (st : progress)
    (key : string) (v : value) : M progress :=
  if (key =? "password")%string then
    if is_not_None v then
      new_hashed_password ← _hash_password pwd_context v;
      if ne (PyStr new_hashed_password) (User.hashed_password (user st)) then
        mret (set_attribute st "hashed_password" (PyStr new_hashed_password))
      else mret st
    else mret st
  else if User.hasattr (user st) key && is_not_None v then
    match User.getattr (user st) key with
    | Some current_value =>
        if ne current_value v then mret (set_attribute st key v)
        else mret st
    | None => mret st
    end
  else mret st.

Fixpoint update_loop (pwd_context : CryptContext)
    (kwargs : list (string * value)) (st : progress) : M progress :=
  match kwargs with
  | [] => mret st
  | (key, v) :: rest =>
      st' ← update_step pwd_context st key v;
      update_loop pwd_context rest st'
  end.

(** [user] is an instance loaded from the session; its identity is the
    primary key it was loaded with. *)
Definition update (pwd_context : CryptContext) (user : User.t)
    (kwargs : list (string * value)) : M User.t :=
  st ← update_loop pwd_context kwargs
         {| user := user; updated := false; assignments := [] |};
  if updated st then
    instance ← session_add (Dirty (User.id user) (assignments st));
    commit;;
    refresh instance
  else mret (UserRepository.user st).

Definition delete (user_id : Z) : M bool :=
  db_user ← get_by_id user_id;
  match db_user with
  | Some db_user =>
      session_delete (Deleted (User.id db_user));;
      commit;;
      mret true
  | None => mret false
  end.

End UserRepository.

End Repositories.

(** ** services.py *)

Module Services.
Import Passlib Py Models Database Repositories.

Module UserService.

Definition create_user (pwd_context : CryptContext)
    (username email password : string) (full_name : option string)
    (is_active : bool) : M User.t :=
  existing ← UserRepository.get_by_username (PyStr username);
  if bool_decide (is_Some existing) then
    raise (ValueError ("Username '" +:+ username +:+ "' is already taken."))
  else
    existing ← UserRepository.get_by_email (PyStr email);
    if bool_decide (is_Some existing) then
      raise (ValueError ("Email '" +:+ email +:+ "' is already registered."))
    else
      created_user ← UserRepository.add pwd_context username email password
                        full_name is_active;
      mret created_user.

Definition get_user (user_id : Z) : M (option User.t) :=
  UserRepository.get_by_id user_id.

(** The uniqueness re-check of one column in [update_user]. *)
Definition check_unique (user_id : Z) (new_value current : value)
    (lookup : value -> M (option User.t)) (message : string) : M unit :=
  if truthy new_value && ne new_value current then
    existing ← lookup new_value;
    match existing with
    | Some existing =>
        if ne (User.id existing) (PyInt user_id) then
          raise (ValueError message)
        else mret tt
    | None => mret tt
    end
  else mret tt.

Definition update_user (pwd_context : CryptContext) (user_id : Z)
    (kwargs : list (string * value)) : M (option User.t) :=
  user_to_update ← UserRepository.get_by_id user_id;
  match user_to_update with
  | None => mret None
  | Some user_to_update =>
      let new_username := get kwargs "username" in
      check_unique user_id new_username (User.username user_to_update)
        UserRepository.get_by_username
        ("Username '" +:+ str new_username +:+ "' is already taken.");;
      let new_email := get kwargs "email" in
      check_unique user_id new_email (User.email user_to_update)
        UserRepository.get_by_email
        ("Email '" +:+ str new_email +:+ "' is already registered.");;
      updated_user ← UserRepository.update pwd_context user_to_update kwargs;
      mret (Some updated_user)
  end.

Definition delete_user (user_id : Z) : M bool :=
  user_to_delete ← UserRepository.get_by_id user_id;
  match user_to_delete with
  | None => mret false
  | Some _ =>
      deleted ← UserRepository.delete user_id;
      mret deleted
  end.

End UserService.

End Services.

(** ** Vocabulary of the statements *)


Section Vocabulary.
Import Py Models Database.

(** A row satisfies the NOT NULL constraints. *)
Definition not_null (u : User.t) : Prop :=
  is_not_None (User.id u) && is_not_None (User.username u)
  && is_not_None (User.email u) && is_not_None (User.hashed_password u).

(** No entry of the field map gives [id] a value other than [current]. *)
Definition keeps_id (current : value) (kwargs : list (string * value))
    : Prop :=
  ∀ v, ("id", v) ∈ kwargs → v = PyNone ∨ Py.eq current v = true.

(** [add(user); commit(); refresh(user)] for a loaded instance with
    pending attribute changes. *)
Definition persist (pk : value) (assignments : list (string * value))
    : M User.t :=
  instance ← session_add (Dirty pk assignments);
  commit;;
  refresh instance.

End Vocabulary.

(** The item [PUT /items/{id}] stores: the requested id with the fields of
    the payload. *)
Definition updated_item (item_id : Z) (data : Main.CreateItem.t)
    : Main.Item.t :=
  {| Main.Item.id := item_id;
     Main.Item.name := Main.CreateItem.name data;
     Main.Item.description := Main.CreateItem.description data |}.

Section MoreVocabulary.
Import Passlib Py Models Database.

(** The row [UserRepository.add] writes in the world [w]. *)
Definition new_row (pwd_context : CryptContext) (w : World)
    (username email password : string) (full_name : option string)
    (is_active : bool) : User.t :=
  {| User.id := PyInt (sequence w);
     User.username := PyStr username;
     User.email := PyStr email;
     User.full_name := from_option PyStr PyNone full_name;
     User.hashed_password :=
       PyStr (hash pwd_context (entropy w (drawn w)) password);
     User.is_active := PyBool is_active;
     User.created_at := PyDateTime (now w);
     User.updated_at := PyNone |}.

(** The store can take a new row with this username and email: the session
    has nothing staged, the table satisfies its constraints, no row has the
    username or the email, and the next id of the sequence is not in use. *)
Definition accepts (w : World) (username email : string) : Prop :=
  pending w = []
  ∧ constraints_ok (table w) = true
  ∧ (∀ u, u ∈ table w → User.username u ≠ PyStr username)
  ∧ (∀ u, u ∈ table w → User.email u ≠ PyStr email)
  ∧ (∀ u, u ∈ table w → User.id u ≠ PyInt (sequence w)).


(** [update_user] re-checks the uniqueness of a column for this value. *)
Definition rechecked (new_value current : value) : bool :=
  truthy new_value && ne new_value current.

(** What [update_user] returns when the repository's [update] ran. *)
Definition found {A : Type} (r : result A * World)
    : result (option A) * World :=
  match r with
  | (Ok a, w) => (Ok (Some a), w)
  | (Raise e, w) => (Raise e, w)
  end.

(** A call of the hasher, among the recorded calls. *)
Definition is_hash (e : event) : Prop := ∃ v, e = HashPassword v.

End MoreVocabulary.

(** ** A context and stores for the examples

    A stand-in for the hashing library, used only to evaluate the
    definitions on concrete inputs: the digest is a scheme prefix, the salt
    and the password; [verify] raises on a digest without the prefix. *)

Module Fixture.
Import Passlib.

Fixpoint after_dollar (s : string) : string :=
  match s with
  | EmptyString => EmptyString
  | String c rest => if (c =? "$")%char then rest else after_dollar rest
  end.

Definition pwd_context : CryptContext :=
  {| hash := λ salt password,
       "$2b$" +:+ NilZero.string_of_uint (Nat.to_uint salt)
         +:+ "$" +:+ password;
     verify := λ plain digest,
       match digest with
       | String "$" (String "2" (String "b" (String "$" rest))) =>
           Some (after_dollar rest =? plain)%string
       | _ => None
       end |}.

Definition alice : Main.UserInDB.t :=
  {| Main.UserInDB.username := "alice";
     Main.UserInDB.email := Some "alice@example.com";
     Main.UserInDB.full_name := None;
     Main.UserInDB.hashed_password := hash pwd_context 7 "Wonderland1" |}.

Definition users_db : gmap string Main.UserInDB.t := {[ "alice" := alice ]}.

(** A new username with the email of [alice]. *)
Definition bob : Main.UserCreate.t :=
  {| Main.UserCreate.username := "bob";
     Main.UserCreate.email := Some "alice@example.com";
     Main.UserCreate.full_name := None;
     Main.UserCreate.password := "Builder2go" |}.

(** A session over a table of two rows. *)
Definition carol : Models.User.t :=
  {| Models.User.id := Py.PyInt 1;
     Models.User.username := Py.PyStr "carol";
     Models.User.email := Py.PyStr "carol@example.com";
     Models.User.full_name := Py.PyStr "Carol C";
     Models.User.hashed_password :=
       Py.PyStr (hash pwd_context 11 "password123");
     Models.User.is_active := Py.PyBool true;
     Models.User.created_at := Py.PyDateTime "2025-01-01 09:00:00+00:00";
     Models.User.updated_at := Py.PyNone |}.

Definition dave : Models.User.t :=
  {| Models.User.id := Py.PyInt 2;
     Models.User.username := Py.PyStr "dave";
     Models.User.email := Py.PyStr "dave@example.com";
     Models.User.full_name := Py.PyNone;
     Models.User.hashed_password :=
       Py.PyStr (hash pwd_context 12 "hunter2hunter2");
     Models.User.is_active := Py.PyBool true;
     Models.User.created_at := Py.PyDateTime "2025-01-02 09:00:00+00:00";
     Models.User.updated_at := Py.PyNone |}.

Definition world : Database.World :=
  {| Database.table := [carol; dave];
     Database.sequence := 3;
     Database.now := "2025-02-01 12:00:00+00:00";
     Database.entropy := λ n, (100 + n)%nat;
     Database.drawn := 0;
     Database.pending := [];
     Database.flushed := [];
     Database.trace := [] |}.

End Fixture.

(** * Properties *)

(** ** The item list *)

Section Items.
Import Main.

Implicit Types (items : list Item.t) (item : Item.t).

Lemma py_max_ge (x : Z) (xs : list Z) : x ≤ py_max x xs.
Proof.
  unfold py_max. revert x.
  induction xs as [|y ys IH]; intros x; simpl; [lia|].
  specialize (IH (Z.max x y)). lia.
Qed.

Lemma py_max_upper (x : Z) (xs : list Z) :
  ∀ y, y ∈ x :: xs → y ≤ py_max x xs.
Proof.
  revert x. induction xs as [|z zs IH]; intros x y Hy.
  - apply list_elem_of_singleton in Hy. subst. unfold py_max. simpl. lia.
  - change (py_max x (z :: zs)) with (py_max (Z.max x z) zs).
    apply elem_of_cons in Hy as [->|Hy].
    + pose proof (py_max_ge (Z.max x z) zs). lia.
    + apply elem_of_cons in Hy as [->|Hy].
      * pose proof (py_max_ge (Z.max x z) zs). lia.
      * apply IH. by apply elem_of_cons; right.
Qed.

Lemma py_max_attained (x : Z) (xs : list Z) : py_max x xs ∈ x :: xs.
Proof.
  revert x. induction xs as [|z zs IH]; intros x.
  - unfold py_max. simpl. by apply elem_of_cons; left.
  - change (py_max x (z :: zs)) with (py_max (Z.max x z) zs).
    specialize (IH (Z.max x z)).
    apply elem_of_cons in IH as [Heq|Hin].
    + rewrite Heq. destruct (Z.max_spec x z) as [[_ ->]|[_ ->]].
      * apply elem_of_cons; right. by apply elem_of_cons; left.
      * by apply elem_of_cons; left.
    + apply elem_of_cons; right. by apply elem_of_cons; right.
Qed.

Lemma get_next_item_id_above items item :
  item ∈ items → Item.id item < get_next_item_id items.
Proof.
  intros Hin. unfold get_next_item_id.
  assert (Hid : Item.id item ∈ map Item.id items)
    by (apply list_elem_of_fmap; eauto).
  destruct (map Item.id items) as [|x xs] eqn:E.
  - by apply elem_of_nil in Hid.
  - pose proof (py_max_upper x xs _ Hid). lia.
Qed.

Lemma read_item_fresh items item :
  (∀ old, old ∈ items → Item.id old ≠ Item.id item) →
  read_item (Item.id item) (items ++ [item]) = Returned item.
Proof.
  intros Hfresh. unfold read_item.
  assert (Hfind : list_find (λ i, Item.id i = Item.id item) (items ++ [item])
                  = Some (length items, item)).
  { apply list_find_Some. split_and!.
    - by rewrite lookup_app_r, Nat.sub_diag.
    - done.
    - intros j y Hj Hlt. rewrite lookup_app_l in Hj by done.
      apply Hfresh. by eapply list_elem_of_lookup_2. }
  by rewrite Hfind.
Qed.

End Items.

(** The scenario of the seeded list: "Monitor" gets id 4, the list has four
    items, deleting id 4 gives back the seeded list, where id 4 is not
    found. *)
Example seeded_items_scenario :
  let monitor :=
    {| Main.CreateItem.name := "Monitor";
       Main.CreateItem.description := Some "4K" |} in
  (Main.add_item monitor Main.items_db).1
    = Returned {| Main.Item.id := 4; Main.Item.name := "Monitor";
                  Main.Item.description := Some "4K" |}
  ∧ length (Main.add_item monitor Main.items_db).2 = 4%nat
  ∧ Main.delete_item 4 (Main.add_item monitor Main.items_db).2
    = (Returned tt, Main.items_db)
  ∧ Main.read_item 4 Main.items_db = Raised Main.not_found.
Proof. repeat split. Qed.

(** The id of a deleted last item is assigned again. *)
Example item_id_assigned_again :
  Main.get_next_item_id (Main.delete_item 3 Main.items_db).2 = 3.
Proof. reflexivity. Qed.

(** C5.  In every state of the item list, [POST /items] answers 201 with an
    item whose id is 1 when the list is empty and otherwise one more than
    the largest id in the list; the item carries the name and description of
    the payload, its id is strictly above the id of every prior item, it is
    appended to the list, and [GET /items/{id}] with that id then returns
    it. *)
Theorem add_item_assigns_next_id :
  ∀ (item_data : Main.CreateItem.t) (items : list Main.Item.t),
    ∃ new_item : Main.Item.t,
      Main.add_item item_data items = (Returned new_item, items ++ [new_item])
      ∧ response_status HTTP_201_CREATED (Main.add_item item_data items).1
        = 201
      ∧ Main.Item.id new_item = Main.get_next_item_id items
      ∧ match items with
        | [] => Main.Item.id new_item = 1
        | _ :: _ =>
            ∃ largest, largest ∈ items
              ∧ (∀ item, item ∈ items →
                   Main.Item.id item ≤ Main.Item.id largest)
              ∧ Main.Item.id new_item = Main.Item.id largest + 1
        end
      ∧ Main.Item.name new_item = Main.CreateItem.name item_data
      ∧ Main.Item.description new_item = Main.CreateItem.description item_data
      ∧ (∀ item, item ∈ items → Main.Item.id item < Main.Item.id new_item)
      ∧ Main.read_item (Main.Item.id new_item) (items ++ [new_item])
        = Returned new_item.
Proof.
  intros item_data items.
  eexists. split; [reflexivity|]. simpl.
  split_and!; try reflexivity.
  - destruct items as [|first rest]; [reflexivity|].
    unfold Main.get_next_item_id. simpl map.
    pose proof (py_max_attained (Main.Item.id first)
                  (map Main.Item.id rest)) as Hat.
    change (Main.Item.id first :: map Main.Item.id rest)
      with (Main.Item.id <$> (first :: rest)) in Hat.
    apply list_elem_of_fmap in Hat as (largest & Heq & Hin).
    exists largest. split_and!; [done| |by rewrite Heq].
    intros item Hitem. rewrite <- Heq.
    apply py_max_upper.
    change (Main.Item.id item ∈ Main.Item.id <$> (first :: rest)).
    apply list_elem_of_fmap; eauto.
  - intros item Hin. by apply get_next_item_id_above.
  - apply (read_item_fresh items
             {| Main.Item.id := Main.get_next_item_id items;
                Main.Item.name := Main.CreateItem.name item_data;
                Main.Item.description :=
                  Main.CreateItem.description item_data |}).
    intros old Hold. simpl.
    pose proof (get_next_item_id_above items old Hold). lia.
Qed.

Lemma delete_item_found (item_id : Z) (items : list Main.Item.t)
    (i : nat) (target : Main.Item.t) :
  list_find (λ item, Main.Item.id item = item_id) items = Some (i, target) →
  items = take i items ++ target :: drop (S i) items
  ∧ Main.Item.id target = item_id
  ∧ Forall (λ item, Main.Item.id item ≠ item_id) (take i items)
  ∧ Main.delete_item item_id items
    = (Returned tt, take i items ++ drop (S i) items).
Proof.
  intros Hfind. pose proof Hfind as (Hi & Hid & Hleast)%list_find_Some.
  split_and!.
  - symmetry. by apply take_drop_middle.
  - done.
  - apply Forall_lookup. intros j y Hj.
    apply lookup_take_Some in Hj as [Hj Hlt]. by eapply Hleast.
  - unfold Main.delete_item. rewrite Hfind. by rewrite delete_take_drop.
Qed.

(** C10.  When some item of the list has the requested id,
    [DELETE /items/{id}] answers 204 and the list is split as
    [before ++ target :: after] where [target] is the first item with that
    id, and becomes [before ++ after]: every other item is kept, unchanged
    and in its place.  When no item has the id, it answers 404 and the list
    is unchanged. *)
Theorem delete_item_removes_first_match :
  ∀ (item_id : Z) (items : list Main.Item.t),
    ((∃ item, item ∈ items ∧ Main.Item.id item = item_id) →
       ∃ before target after,
         items = before ++ target :: after
         ∧ Main.Item.id target = item_id
         ∧ Forall (λ item, Main.Item.id item ≠ item_id) before
         ∧ Main.delete_item item_id items = (Returned tt, before ++ after)
         ∧ response_status HTTP_204_NO_CONTENT
             (Main.delete_item item_id items).1 = 204)
    ∧ ((∀ item, item ∈ items → Main.Item.id item ≠ item_id) →
         Main.delete_item item_id items = (Raised Main.not_found, items)
         ∧ response_status HTTP_204_NO_CONTENT
             (Main.delete_item item_id items).1 = 404).
Proof.
  intros item_id items. split.
  - intros (item & Hin & Hid).
    destruct (list_find (λ item, Main.Item.id item = item_id) items)
      as [[i target]|] eqn:Hfind.
    + destruct (delete_item_found _ _ _ _ Hfind) as (Hsplit & Ht & Hb & Hdel).
      exists (take i items), target, (drop (S i) items).
      split_and!; try done. by rewrite Hdel.
    + apply list_find_None in Hfind.
      rewrite Forall_forall in Hfind. by destruct (Hfind item Hin).
  - intros Habsent.
    assert (Hfind : list_find (λ item, Main.Item.id item = item_id) items
                    = None)
      by (apply list_find_None, Forall_forall; exact Habsent).
    unfold Main.delete_item. rewrite Hfind. done.
Qed.

(** The seeded list, with id 2 (present) and id 9999 (absent). *)
Lemma delete_item_removes_first_match_witness :
  (∃ before target after,
     Main.items_db = before ++ target :: after
     ∧ Main.Item.id target = 2
     ∧ Forall (λ item, Main.Item.id item ≠ 2) before
     ∧ Main.delete_item 2 Main.items_db = (Returned tt, before ++ after)
     ∧ response_status HTTP_204_NO_CONTENT
         (Main.delete_item 2 Main.items_db).1 = 204)
  ∧ (Main.delete_item 9999 Main.items_db
       = (Raised Main.not_found, Main.items_db)
     ∧ response_status HTTP_204_NO_CONTENT
         (Main.delete_item 9999 Main.items_db).1 = 404).
Proof.
  split.
  - apply (proj1 (delete_item_removes_first_match 2 Main.items_db)).
    exists {| Main.Item.id := 2; Main.Item.name := "Mouse";
              Main.Item.description := Some "Wireless optical mouse" |}.
    split; [|reflexivity].
    unfold Main.items_db. apply elem_of_cons; right.
    apply elem_of_cons; left. reflexivity.
  - apply (proj2 (delete_item_removes_first_match 9999 Main.items_db)).
    intros item Hin. unfold Main.items_db in Hin.
    repeat (apply elem_of_cons in Hin as [->|Hin]; [simpl; lia|]).
    by apply elem_of_nil in Hin.
Defined.

(** ** Registration and login over the in-memory user dictionary *)






Example password_complexity_examples :
  Main.password_complexity "Ab1defg"
    = Main.ValueError "Password must be at least 8 characters long"
  ∧ Main.password_complexity "builder2go"
    = Main.ValueError "Password must contain at least one uppercase letter"
  ∧ Main.password_complexity "BUILDER2GO"
    = Main.ValueError "Password must contain at least one lowercase letter"
  ∧ Main.password_complexity "Buildertogo"
    = Main.ValueError "Password must contain at least one digit"
  ∧ Main.password_complexity "Builder2go" = Main.Valid "Builder2go".
Proof. repeat split. Qed.



Lemma register_user_new_username pwd_context salt user_data users_db :
  users_db !! Main.UserCreate.username user_data = None →
  Main.register_user pwd_context salt user_data users_db
  = (Returned {| Main.UserBase.username := Main.UserCreate.username user_data;
                 Main.UserBase.email := Main.UserCreate.email user_data;
                 Main.UserBase.full_name :=
                   Main.UserCreate.full_name user_data |},
     <[Main.UserCreate.username user_data :=
         {| Main.UserInDB.username := Main.UserCreate.username user_data;
            Main.UserInDB.email := Main.UserCreate.email user_data;
            Main.UserInDB.full_name := Main.UserCreate.full_name user_data;
            Main.UserInDB.hashed_password :=
              Passlib.hash pwd_context salt
                (Main.UserCreate.password user_data) |}]> users_db).
Proof.
  intros Hnew. unfold Main.register_user, Main.get_user. by rewrite Hnew.
Qed.

(** C1, as the claim states it, fails: a request with a new username, a
    password that passes the validator and the email of a registered user
    is answered 201 and a record is stored for it. *)
Lemma register_duplicate_email_accepted :
  ¬ (∀ (pwd_context : Passlib.CryptContext) (salt : nat)
       (body : Main.UserCreate.t) (users_db : gmap string Main.UserInDB.t),
       (∃ name registered,
           users_db !! name = Some registered
           ∧ Main.UserInDB.email registered = Main.UserCreate.email body) →
       users_db !! Main.UserCreate.username body = None →
       response_status HTTP_201_CREATED
         (Main.post_register pwd_context salt body users_db).1 = 400
       ∧ (Main.post_register pwd_context salt body users_db).2 = users_db).
Proof.
  intros Hclaim.
  destruct (Hclaim Fixture.pwd_context 3%nat Fixture.bob Fixture.users_db)
    as [Hstatus _].
  - exists "alice", Fixture.alice. split; [|reflexivity].
    unfold Fixture.users_db. apply lookup_singleton_eq.
  - unfold Fixture.users_db. by apply lookup_singleton_ne.
  - vm_compute in Hstatus. discriminate.
Qed.

(** C1, amended.  For a request whose password passes the validator,
    [POST /register] compares only the username with the registered ones:
    a registered username is answered 400 "Username already registered" and
    the dictionary is unchanged; a new username is answered 201 and a record
    with the request's username, email, full name and the digest of its
    password is stored under the username, whether or not the email is that
    of a registered user. *)
Theorem register_checks_username_only :
  ∀ (pwd_context : Passlib.CryptContext) (salt : nat)
    (body : Main.UserCreate.t) (users_db : gmap string Main.UserInDB.t),
    Main.password_complexity (Main.UserCreate.password body)
      = Main.Valid (Main.UserCreate.password body) →
    (is_Some (users_db !! Main.UserCreate.username body) →
       Main.post_register pwd_context salt body users_db
       = (Raised {| status_code := 400;
                    detail := "Username already registered";
                    headers := [] |},
          users_db))
    ∧ (users_db !! Main.UserCreate.username body = None →
         response_status HTTP_201_CREATED
           (Main.post_register pwd_context salt body users_db).1 = 201
         ∧ (Main.post_register pwd_context salt body users_db).2
           = <[Main.UserCreate.username body :=
                 {| Main.UserInDB.username := Main.UserCreate.username body;
                    Main.UserInDB.email := Main.UserCreate.email body;
                    Main.UserInDB.full_name := Main.UserCreate.full_name body;
                    Main.UserInDB.hashed_password :=
                      Passlib.hash pwd_context salt
                        (Main.UserCreate.password body) |}]> users_db).
Proof.
  intros pwd_context salt body users_db Hvalid.
  unfold Main.post_register. rewrite Hvalid. split.
  - intros [registered Hreg].
    unfold Main.register_user, Main.get_user. by rewrite Hreg.
  - intros Hnew. by rewrite register_user_new_username.
Qed.

(** The request of [bob] (new username, email of [alice]) and a second
    request under the name of [alice]. *)
Lemma register_checks_username_only_witness :
  (response_status HTTP_201_CREATED
     (Main.post_register Fixture.pwd_context 3 Fixture.bob
        Fixture.users_db).1 = 201
   ∧ (Main.post_register Fixture.pwd_context 3 Fixture.bob
        Fixture.users_db).2
     = <["bob" :=
           {| Main.UserInDB.username := "bob";
              Main.UserInDB.email := Some "alice@example.com";
              Main.UserInDB.full_name := None;
              Main.UserInDB.hashed_password :=
                Passlib.hash Fixture.pwd_context 3 "Builder2go" |}]>
         Fixture.users_db)
  ∧ Main.post_register Fixture.pwd_context 3
      {| Main.UserCreate.username := "alice";
         Main.UserCreate.email := Some "other@example.com";
         Main.UserCreate.full_name := None;
         Main.UserCreate.password := "Builder2go" |}
      Fixture.users_db
    = (Raised {| status_code := 400;
                 detail := "Username already registered";
                 headers := [] |},
       Fixture.users_db).
Proof.
  split.
  - apply (proj2 (register_checks_username_only Fixture.pwd_context 3
                    Fixture.bob Fixture.users_db eq_refl)).
    unfold Fixture.users_db. by apply lookup_singleton_ne.
  - apply (proj1 (register_checks_username_only Fixture.pwd_context 3
                    {| Main.UserCreate.username := "alice";
                       Main.UserCreate.email := Some "other@example.com";
                       Main.UserCreate.full_name := None;
                       Main.UserCreate.password := "Builder2go" |}
                    Fixture.users_db eq_refl)).
    exists Fixture.alice. unfold Fixture.users_db. apply lookup_singleton_eq.
Defined.




(** ** The user store *)

Section Session.
Import Py Models Database Repositories Services.

Implicit Types (w : World) (rows : list User.t) (u row : User.t).

Lemma constraints_ok_spec rows :
  constraints_ok rows = true ↔
    NoDup (User.id <$> rows) ∧ NoDup (User.username <$> rows)
    ∧ NoDup (User.email <$> rows) ∧ Forall not_null rows.
Proof.
  unfold constraints_ok.
  rewrite !andb_true_iff, !bool_decide_eq_true.
  rewrite <- Is_true_true, forallb_True. unfold not_null. tauto.
Qed.

Lemma constraints_ok_delete rows i :
  constraints_ok rows = true → constraints_ok (delete i rows) = true.
Proof.
  rewrite !constraints_ok_spec. intros (Hid & Hname & Hmail & Hnn).
  rewrite !list_fmap_delete. split_and!.
  - eapply sublist_NoDup; [exact Hid|apply sublist_delete].
  - eapply sublist_NoDup; [exact Hname|apply sublist_delete].
  - eapply sublist_NoDup; [exact Hmail|apply sublist_delete].
  - by apply Forall_delete.
Qed.

(** The two ways a row is looked up by primary key agree. *)
Lemma find_by_id rows (pk : value) :
  list_find (λ u, User.getattr u "id" = Some pk) rows
  = list_find (λ u, User.id u = pk) rows.
Proof.
  apply list_find_ext. intros u. unfold User.getattr. simpl.
  split; [congruence|by intros ->].
Qed.

Lemma find_stored (P : User.t → Prop) `{!∀ u, Decision (P u)} rows :
  (∃ u, u ∈ rows ∧ P u) → ∃ i row, list_find P rows = Some (i, row).
Proof.
  intros (u & Hin & HP).
  destruct (list_find_elem_of P rows u Hin HP) as [[i row] Hfind]. eauto.
Qed.

Lemma find_absent (P : User.t → Prop) `{!∀ u, Decision (P u)} rows :
  ¬ (∃ u, u ∈ rows ∧ P u) → list_find P rows = None.
Proof.
  intros Hnone. apply list_find_None, Forall_forall.
  intros u Hin HP. apply Hnone. eauto.
Qed.

Lemma query_first_run (column : string) (v : value) w :
  query_first column v w
  = (Ok (snd <$> list_find (λ u, User.getattr u column = Some v) (table w)),
     traced w [Select column v]).
Proof. reflexivity. Qed.

Lemma traced_traced w (es es' : list event) :
  traced (traced w es) es' = traced w (es ++ es').
Proof. unfold traced. simpl. by rewrite <- app_assoc. Qed.

(** *** Assignments and the primary key *)

Lemma setattr_id u (key : string) (v : value) :
  key ≠ "id" → User.id (User.setattr u key v) = User.id u.
Proof.
  intros Hkey. unfold User.setattr.
  destruct (String.eqb_spec key "id") as [->|_]; [done|].
  repeat (destruct (_ =? _)%string; [reflexivity|]). reflexivity.
Qed.

Lemma assign_id row (assignments : list (string * value)) :
  "id" ∉ assignments.*1 → User.id (assign row assignments) = User.id row.
Proof.
  unfold assign. revert row.
  induction assignments as [|[key v] rest IH]; intros row Hkeys; [done|].
  simpl in *. apply not_elem_of_cons in Hkeys as [Hkey Hrest].
  rewrite IH by done. apply setattr_id. congruence.
Qed.

Lemma on_update_id (time : string) assignments row :
  User.id (on_update time assignments row) = User.id row.
Proof. unfold on_update. by destruct (existsb _ _). Qed.

(** *** Writing one modified instance *)

Lemma find_after_insert (P : User.t → Prop) `{!∀ u, Decision (P u)}
    rows i row row' :
  list_find P rows = Some (i, row) → P row' →
  list_find P (<[i := row']> rows) = Some (i, row').
Proof.
  intros (Hi & _ & Hleast)%list_find_Some HP. apply list_find_Some.
  split_and!.
  - apply list_lookup_insert_eq. by eapply lookup_lt_Some.
  - done.
  - intros j y Hj Hlt. rewrite list_lookup_insert_ne in Hj by lia.
    by eapply Hleast.
Qed.

Lemma persist_run pk assignments w :
  pending w = [] →
  match list_find (λ u, User.id u = pk) (table w) with
  | None =>
      (persist pk assignments w).1 = Raise StaleDataError
      ∧ table (persist pk assignments w).2 = table w
  | Some (i, row) =>
      let row' := on_update (now w) assignments (assign row assignments) in
      if constraints_ok (<[i := row']> (table w)) then
        (User.id row' = pk → (persist pk assignments w).1 = Ok row')
        ∧ table (persist pk assignments w).2 = <[i := row']> (table w)
      else
        (persist pk assignments w).1 = Raise IntegrityError
        ∧ table (persist pk assignments w).2 = table w
  end.
Proof.
  intros Hpending.
  unfold persist, session_add, commit, refresh, stage, log, effect, mbind,
    M_bind, mret, M_ret. simpl. rewrite Hpending. simpl.
  destruct (list_find (λ u, User.id u = pk) (table w)) as [[i row]|] eqn:Hfind;
    [simpl|done].
  destruct (constraints_ok _) eqn:Hok; simpl; [|done].
  split; [|destruct (list_find _ (<[_:=_]> _)) as [[? ?]|]; reflexivity].
  intros Hpk. rewrite Hpk.
  by rewrite (find_after_insert _ _ _ _ _ Hfind Hpk).
Qed.

(** *** The loop of [update] *)

Lemma hash_password_frame pwd_context (v : value) w :
  table (UserRepository._hash_password pwd_context v w).2 = table w
  ∧ pending (UserRepository._hash_password pwd_context v w).2 = pending w
  ∧ now (UserRepository._hash_password pwd_context v w).2 = now w.
Proof.
  unfold UserRepository._hash_password, log, effect, raise, mbind, M_bind.
  by destruct v.
Qed.

Lemma update_step_frame pwd_context st key (v : value) w :
  table (UserRepository.update_step pwd_context st key v w).2 = table w
  ∧ pending (UserRepository.update_step pwd_context st key v w).2 = pending w
  ∧ now (UserRepository.update_step pwd_context st key v w).2 = now w.
Proof.
  unfold UserRepository.update_step.
  destruct (key =? "password")%string.
  - destruct (is_not_None v); [|done].
    pose proof (hash_password_frame pwd_context v w) as Hframe.
    unfold mbind, M_bind.
    destruct (UserRepository._hash_password pwd_context v w)
      as [[digest|e] w1]; [|done].
    by destruct (ne _ _).
  - destruct (_ && _); [|done].
    destruct (User.getattr _ _); [|done]. by destruct (ne _ _).
Qed.

Lemma update_loop_frame pwd_context kwargs st w :
  table (UserRepository.update_loop pwd_context kwargs st w).2 = table w
  ∧ pending (UserRepository.update_loop pwd_context kwargs st w).2 = pending w
  ∧ now (UserRepository.update_loop pwd_context kwargs st w).2 = now w.
Proof.
  revert st w. induction kwargs as [|[key v] rest IH]; intros st w; [done|].
  simpl. pose proof (update_step_frame pwd_context st key v w) as Hstep.
  unfold mbind, M_bind.
  destruct (UserRepository.update_step pwd_context st key v w)
    as [[st1|e] w1]; [|done].
  destruct (IH st1 w1) as (-> & -> & ->). exact Hstep.
Qed.

Lemma update_step_id pwd_context st key (v : value) w st' w' :
  (key = "id" → v = PyNone ∨ Py.eq (User.id (UserRepository.user st)) v = true) →
  "id" ∉ (UserRepository.assignments st).*1 →
  UserRepository.update_step pwd_context st key v w = (Ok st', w') →
  User.id (UserRepository.user st') = User.id (UserRepository.user st)
  ∧ "id" ∉ (UserRepository.assignments st').*1.
Proof.
  intros Hkey Hkeys. unfold UserRepository.update_step.
  destruct (String.eqb_spec key "password") as [->|Hpw].
  - destruct (is_not_None v); [|by intros [= <- <-]].
    unfold mbind, M_bind.
    destruct (UserRepository._hash_password pwd_context v w)
      as [[digest|e] w1]; [|done].
    destruct (ne _ _); intros [= <- <-]; [|done]. simpl. split; [done|].
    rewrite fmap_app. simpl. rewrite not_elem_of_app. split; [done|].
    by apply not_elem_of_cons; split; [|apply not_elem_of_nil].
  - destruct (_ && _) eqn:Hguard; [|by intros [= <- <-]].
    apply andb_true_iff in Hguard as [_ Hnn].
    destruct (User.getattr _ _) as [current|] eqn:Hget; [|by intros [= <- <-]].
    destruct (ne current v) eqn:Hne; intros [= <- <-]; [|done].
    assert (key ≠ "id") as Hnid.
    { intros ->. unfold User.getattr in Hget. simpl in Hget.
      injection Hget as <-.
      destruct (Hkey eq_refl) as [->|Heq]; [done|].
      unfold ne in Hne. by rewrite Heq in Hne. }
    simpl. split; [by apply setattr_id|].
    rewrite fmap_app. simpl. rewrite not_elem_of_app. split; [done|].
    by apply not_elem_of_cons; split; [|apply not_elem_of_nil].
Qed.

Lemma update_loop_id pwd_context kwargs st w st' w' :
  keeps_id (User.id (UserRepository.user st)) kwargs →
  "id" ∉ (UserRepository.assignments st).*1 →
  UserRepository.update_loop pwd_context kwargs st w = (Ok st', w') →
  User.id (UserRepository.user st') = User.id (UserRepository.user st)
  ∧ "id" ∉ (UserRepository.assignments st').*1.
Proof.
  revert st w. induction kwargs as [|[key v] rest IH]; intros st w Hkeep Hkeys.
  - by intros [= <- <-].
  - simpl. unfold mbind, M_bind.
    destruct (UserRepository.update_step pwd_context st key v w)
      as [[st1|e] w1] eqn:Hstep; [|done].
    intros Hloop.
    destruct (update_step_id _ _ _ _ _ _ _
                (λ Hk, Hkeep v ltac:(rewrite <- Hk; by left)) Hkeys Hstep)
      as [Hid1 Hkeys1].
    destruct (IH st1 w1) as [Hid' Hkeys']; [|done|done|].
    + rewrite Hid1. intros x Hx. apply Hkeep. by right.
    + by rewrite Hid', Hid1.
Qed.

(** *** [update] as a whole *)

Lemma update_run pwd_context user kwargs w :
  UserRepository.update pwd_context user kwargs w
  = match UserRepository.update_loop pwd_context kwargs
            {| UserRepository.user := user;
               UserRepository.updated := false;
               UserRepository.assignments := [] |} w with
    | (Ok st, w1) =>
        if UserRepository.updated st then
          persist (User.id user) (UserRepository.assignments st) w1
        else (Ok (UserRepository.user st), w1)
    | (Raise e, w1) => (Raise e, w1)
    end.
Proof.
  unfold UserRepository.update. unfold mbind at 1. unfold M_bind at 1.
  destruct (UserRepository.update_loop _ _ _ _) as [[st|e] w1]; [|done].
  by destruct (UserRepository.updated st).
Qed.

Lemma update_keeps_ids pwd_context user kwargs w :
  pending w = [] →
  keeps_id (User.id user) kwargs →
  User.id <$> table (UserRepository.update pwd_context user kwargs w).2
    = User.id <$> table w
  ∧ ∀ u', (UserRepository.update pwd_context user kwargs w).1 = Ok u' →
          User.id u' = User.id user.
Proof.
  intros Hpending Hkeep. rewrite update_run.
  pose proof (update_loop_frame pwd_context kwargs
                {| UserRepository.user := user;
                   UserRepository.updated := false;
                   UserRepository.assignments := [] |} w)
    as (Htable & Hpend & _).
  destruct (UserRepository.update_loop _ _ _ _) as [[st|e] w1] eqn:Hloop;
    simpl in Htable, Hpend; [|by simpl; rewrite Htable].
  destruct (update_loop_id pwd_context kwargs
              {| UserRepository.user := user;
                 UserRepository.updated := false;
                 UserRepository.assignments := [] |} w st w1
              Hkeep (not_elem_of_nil _) Hloop)
    as [Hid Hkeys]. simpl in Hid.
  destruct (UserRepository.updated st).
  - rewrite Hpending in Hpend.
    pose proof (persist_run (User.id user) (UserRepository.assignments st)
                  w1 Hpend) as Hrun.
    destruct (list_find _ (table w1)) as [[i row]|] eqn:Hfind.
    + pose proof Hfind as (Hi & Hpk & _)%list_find_Some.
      assert (Hrow' : User.id (on_update (now w1)
                                 (UserRepository.assignments st)
                                 (assign row (UserRepository.assignments st)))
                      = User.id user)
        by (by rewrite on_update_id, assign_id).
      cbv zeta in Hrun. destruct (constraints_ok _).
      * destruct Hrun as [Hres Htab]. rewrite Htab, (Hres Hrow'). split.
        -- rewrite list_fmap_insert, <- Htable. apply list_insert_id.
           by rewrite list_lookup_fmap, Hi, Hrow', <- Hpk.
        -- by intros u' [= <-].
      * destruct Hrun as [-> ->]. by rewrite Htable.
    + destruct Hrun as [-> ->]. by rewrite Htable.
  - simpl. rewrite Htable. split; [done|]. by intros u' [= <-].
Qed.

Lemma check_unique_frame (user_id : Z) (new_value current : value)
    (column message : string) w :
  table (UserService.check_unique user_id new_value current
           (query_first column) message w).2 = table w
  ∧ pending (UserService.check_unique user_id new_value current
               (query_first column) message w).2 = pending w.
Proof.
  unfold UserService.check_unique.
  destruct (_ && _); [|done].
  unfold mbind, M_bind. rewrite query_first_run.
  destruct (snd <$> _) as [existing|]; [|done]. by destruct (ne _ _).
Qed.

Lemma update_user_keeps_ids pwd_context (user_id : Z) kwargs w :
  pending w = [] →
  keeps_id (PyInt user_id) kwargs →
  User.id <$> table (UserService.update_user pwd_context user_id kwargs w).2
    = User.id <$> table w
  ∧ ∀ u', (UserService.update_user pwd_context user_id kwargs w).1
            = Ok (Some u') →
          User.id u' = PyInt user_id.
Proof.
  intros Hpending Hkeep.
  destruct (UserService.update_user pwd_context user_id kwargs w)
    as [r w'] eqn:Hrun.
  simpl. revert Hrun.
  unfold UserService.update_user, UserRepository.get_by_id.
  unfold mbind at 1. unfold M_bind at 1.
  rewrite query_first_run, find_by_id.
  destruct (list_find _ (table w)) as [[i user]|] eqn:Hfind; simpl;
    [|by intros [= <- <-]].
  pose proof Hfind as (_ & Hid & _)%list_find_Some.
  unfold mbind at 1. unfold M_bind at 1.
  pose proof (check_unique_frame user_id (get kwargs "username")
                (User.username user) "username"
                ("Username '" +:+ str (get kwargs "username")
                   +:+ "' is already taken.")
                (traced w [Select "id" (PyInt user_id)])) as [Ht1 Hp1].
  unfold UserRepository.get_by_username.
  change (λ username : value, query_first "username" username)
    with (query_first "username").
  destruct (UserService.check_unique user_id (get kwargs "username") _ _ _ _)
    as [[[]|e] w1]; simpl in Ht1, Hp1;
    [|intros [= <- <-]; by rewrite Ht1].
  unfold mbind at 1. unfold M_bind at 1.
  pose proof (check_unique_frame user_id (get kwargs "email")
                (User.email user) "email"
                ("Email '" +:+ str (get kwargs "email")
                   +:+ "' is already registered.") w1) as [Ht2 Hp2].
  unfold UserRepository.get_by_email.
  change (λ email : value, query_first "email" email)
    with (query_first "email").
  destruct (UserService.check_unique user_id (get kwargs "email") _ _ _ _)
    as [[[]|e] w2]; simpl in Ht2, Hp2;
    [|intros [= <- <-]; by rewrite Ht2, Ht1].
  unfold mbind, M_bind.
  assert (Hpend2 : pending w2 = []) by (by rewrite Hp2, Hp1).
  rewrite <- Hid in Hkeep.
  destruct (update_keeps_ids pwd_context user kwargs w2 Hpend2 Hkeep)
    as [Hids Hret].
  destruct (UserRepository.update pwd_context user kwargs w2)
    as [[u'|e] w3]; simpl in *; intros [= <- <-].
  - split; [by rewrite Hids, Ht2, Ht1|].
    intros ? [= <-]. rewrite <- Hid. by apply Hret.
  - split; [by rewrite Hids, Ht2, Ht1|done].
Qed.

Lemma add_keeps_rows pwd_context username email password full_name
    is_active w :
  pending w = [] →
  table (UserRepository.add pwd_context username email password full_name
           is_active w).2 = table w
  ∨ ∃ new,
      table (UserRepository.add pwd_context username email password
               full_name is_active w).2 = table w ++ [new].
Proof.
  intros Hpending.
  unfold UserRepository.add, UserRepository._hash_password, session_add,
    commit, refresh, stage, log, effect, mbind, M_bind, mret, M_ret. simpl.
  rewrite Hpending. simpl.
  destruct (constraints_ok _); simpl; [|by left].
  right. eexists.
  destruct (list_find _ _) as [[? ?]|]; reflexivity.
Qed.

Lemma delete_keeps_rows (user_id : Z) w :
  pending w = [] →
  table (UserRepository.delete user_id w).2 `sublist_of` table w.
Proof.
  intros Hpending.
  unfold UserRepository.delete, UserRepository.get_by_id.
  unfold mbind at 1. unfold M_bind at 1.
  rewrite query_first_run.
  destruct (snd <$> _) as [db_user|]; simpl; [|done].
  unfold session_delete, commit, stage, log, effect, mbind, M_bind, mret,
    M_ret. simpl. rewrite Hpending. simpl.
  destruct (list_find _ _) as [[i row]|]; simpl; [|done].
  destruct (constraints_ok _); simpl; [apply sublist_delete|done].
Qed.


(** *** A stored instance and its row *)

Lemma eq_refl_value (v : value) : Py.eq v v = true.
Proof.
  destruct v as [|[]|n|s|s]; simpl; try done;
    [apply Z.eqb_refl|apply String.eqb_refl|apply String.eqb_refl].
Qed.


Lemma stored_index rows user :
  user ∈ rows → NoDup (User.id <$> rows) →
  ∃ i, rows !! i = Some user
       ∧ list_find (λ u, User.id u = User.id user) rows = Some (i, user).
Proof.
  intros [i Hi]%list_elem_of_lookup Hnodup. exists i. split; [done|].
  apply list_find_Some. split_and!; [done..|].
  intros j y Hj Hlt Hsame.
  assert (j = i); [|lia].
  apply (NoDup_lookup _ j i (User.id user) Hnodup);
    rewrite list_lookup_fmap; [by rewrite Hj; simpl; f_equal|by rewrite Hi].
Qed.





Lemma stored_not_null rows user :
  constraints_ok rows = true → user ∈ rows → not_null user.
Proof.
  intros (_ & _ & _ & Hnn)%constraints_ok_spec Hin.
  by eapply Forall_forall in Hnn.
Qed.

Lemma add_calls pwd_context username email password full_name is_active w :
  drawn (UserRepository.add pwd_context username email password full_name
           is_active w).2 = S (drawn w)
  ∧ ∃ rest,
      trace (UserRepository.add pwd_context username email password
               full_name is_active w).2
      = trace w ++ [HashPassword (PyStr password); SessionAdd; SessionCommit]
          ++ rest.
Proof.
  unfold UserRepository.add, UserRepository._hash_password, session_add,
    commit, refresh, stage, log, effect, mbind, M_bind, mret, M_ret. simpl.
  destruct (flush _ _ _ _) as [[[rows seq] keys]|e]; simpl.
  - destruct (constraints_ok rows); simpl.
    + destruct (keys !! _) as [key|]; simpl;
        [destruct (list_find _ _) as [[? ?]|]; simpl|];
        (split; [done|exists [SessionRefresh]; by rewrite <- !app_assoc]).
    + split; [done|]. exists []. by rewrite <- !app_assoc.
  - split; [done|]. exists []. by rewrite <- !app_assoc.
Qed.

End Session.

(** C3.  [create_user] looks the username up, then the email, and only
    then calls the repository.  When a row has the username it raises
    "Username '...' is already taken." after that one query; when no row has
    the username but one has the email it raises "Email '...' is already
    registered." after the two queries.  In both cases the world is the one
    it started from with only the queries recorded: no salt drawn, nothing
    staged, no row written.  When neither is taken it runs
    [UserRepository.add], whose first calls are the hash, [add] and
    [commit], in that order. *)
Theorem create_user_checks_before_hashing :
  ∀ (pwd_context : Passlib.CryptContext) (username email password : string)
    (full_name : option string) (is_active : bool) (w : Database.World),
    let username_taken :=
      ∃ u, u ∈ Database.table w
           ∧ Models.User.username u = Py.PyStr username in
    let email_taken :=
      ∃ u, u ∈ Database.table w ∧ Models.User.email u = Py.PyStr email in
    let by_username := Database.Select "username" (Py.PyStr username) in
    let by_email := Database.Select "email" (Py.PyStr email) in
    let run :=
      Services.UserService.create_user pwd_context username email password
        full_name is_active w in
    (username_taken →
       run = (Database.Raise
                (Database.ValueError
                   ("Username '" +:+ username +:+ "' is already taken.")),
              Database.traced w [by_username]))
    ∧ (¬ username_taken → email_taken →
         run = (Database.Raise
                  (Database.ValueError
                     ("Email '" +:+ email +:+ "' is already registered.")),
                Database.traced w [by_username; by_email]))
    ∧ (¬ username_taken → ¬ email_taken →
         Database.drawn run.2 = S (Database.drawn w)
         ∧ ∃ rest,
             Database.trace run.2
             = Database.trace w
                 ++ [by_username; by_email;
                     Database.HashPassword (Py.PyStr password);
                     Database.SessionAdd; Database.SessionCommit] ++ rest).
Proof.
  intros pwd_context username email password full_name is_active w
    username_taken email_taken by_username by_email run.
  assert (Hrun : run =
    match list_find (λ u, Models.User.username u = Py.PyStr username)
            (Database.table w) with
    | Some _ =>
        (Database.Raise
           (Database.ValueError
              ("Username '" +:+ username +:+ "' is already taken.")),
         Database.traced w [by_username])
    | None =>
        match list_find (λ u, Models.User.email u = Py.PyStr email)
                (Database.table w) with
        | Some _ =>
            (Database.Raise
               (Database.ValueError
                  ("Email '" +:+ email +:+ "' is already registered.")),
             Database.traced w [by_username; by_email])
        | None =>
            match
              Repositories.UserRepository.add pwd_context username email
                password full_name is_active
                (Database.traced w [by_username; by_email])
            with
            | (Database.Ok created_user, w') => (Database.Ok created_user, w')
            | (Database.Raise e, w') => (Database.Raise e, w')
            end
        end
    end).
  { unfold run, Services.UserService.create_user,
      Repositories.UserRepository.get_by_username,
      Repositories.UserRepository.get_by_email.
    unfold mbind at 1. unfold Database.M_bind at 1.
    rewrite query_first_run.
    rewrite (list_find_ext _
               (λ u, Models.User.username u = Py.PyStr username))
      by (intros u; unfold Models.User.getattr; simpl;
          split; congruence).
    destruct (list_find (λ u, Models.User.username u = Py.PyStr username) _)
      as [[i u]|]; [reflexivity|]. simpl.
    unfold mbind at 1. unfold Database.M_bind at 1.
    rewrite query_first_run, traced_traced.
    rewrite (list_find_ext _ (λ u, Models.User.email u = Py.PyStr email))
      by (intros u; unfold Models.User.getattr; simpl;
          split; congruence).
    simpl Database.table.
    destruct (list_find (λ u, Models.User.email u = Py.PyStr email) _)
      as [[i u]|]; reflexivity. }
  split_and!.
  - intros Htaken. rewrite Hrun.
    destruct (find_stored _ _ Htaken) as (i & row & ->). done.
  - intros Hfree Htaken. rewrite Hrun.
    rewrite (find_absent _ _ Hfree).
    destruct (find_stored _ _ Htaken) as (i & row & ->). done.
  - intros Hfree Hfree'. rewrite Hrun.
    rewrite (find_absent _ _ Hfree), (find_absent _ _ Hfree').
    destruct (add_calls pwd_context username email password full_name
                is_active (Database.traced w [by_username; by_email]))
      as [Hdrawn [rest Htrace]].
    split.
    + destruct (Repositories.UserRepository.add _ _ _ _ _ _ _)
        as [[created|e] w']; exact Hdrawn.
    + exists rest.
      destruct (Repositories.UserRepository.add _ _ _ _ _ _ _)
        as [[created|e] w']; simpl in *; rewrite Htrace;
        by rewrite <- !app_assoc.
Qed.
Lemma fixture_rows (P : Models.User.t → Prop) :
  (∃ u, u ∈ Database.table Fixture.world ∧ P u)
  ↔ P Fixture.carol ∨ P Fixture.dave.
Proof.
  simpl. split.
  - intros (u & Hin & HP).
    apply elem_of_cons in Hin as [->|Hin]; [by left|].
    apply list_elem_of_singleton in Hin as ->. by right.
  - intros [HP|HP]; eexists; (split; [|exact HP]).
    + apply elem_of_cons; by left.
    + apply elem_of_cons; right. by apply list_elem_of_singleton.
Qed.

(** On the table of [carol] and [dave]: the username "dave" is taken; the
    username "erin" is free and the email of [dave] is taken; both "erin"
    and her email are free. *)
Lemma create_user_checks_before_hashing_witness :
  Services.UserService.create_user Fixture.pwd_context
    "dave" "d@example.com" "Secret123" None true Fixture.world
  = (Database.Raise (Database.ValueError "Username 'dave' is already taken."),
     Database.traced Fixture.world
       [Database.Select "username" (Py.PyStr "dave")])
  ∧ Services.UserService.create_user Fixture.pwd_context
      "erin" "dave@example.com" "Secret123" None true Fixture.world
    = (Database.Raise
         (Database.ValueError
            "Email 'dave@example.com' is already registered."),
       Database.traced Fixture.world
         [Database.Select "username" (Py.PyStr "erin");
          Database.Select "email" (Py.PyStr "dave@example.com")])
  ∧ (Database.drawn
       (Services.UserService.create_user Fixture.pwd_context
          "erin" "erin@example.com" "Secret123" None true Fixture.world).2
     = 1%nat
     ∧ ∃ rest,
         Database.trace
           (Services.UserService.create_user Fixture.pwd_context
              "erin" "erin@example.com" "Secret123" None true
              Fixture.world).2
         = [] ++ [Database.Select "username" (Py.PyStr "erin");
                  Database.Select "email" (Py.PyStr "erin@example.com");
                  Database.HashPassword (Py.PyStr "Secret123");
                  Database.SessionAdd; Database.SessionCommit] ++ rest).
Proof.
  pose proof (create_user_checks_before_hashing Fixture.pwd_context
                "dave" "d@example.com" "Secret123" None true Fixture.world)
    as (Hdave & _ & _).
  pose proof (create_user_checks_before_hashing Fixture.pwd_context
                "erin" "dave@example.com" "Secret123" None true
                Fixture.world) as (_ & Hmail & _).
  pose proof (create_user_checks_before_hashing Fixture.pwd_context
                "erin" "erin@example.com" "Secret123" None true
                Fixture.world) as (_ & _ & Herin).
  split; [|split].
  - apply Hdave. apply fixture_rows. by right.
  - apply Hmail.
    + rewrite fixture_rows. intros [H|H]; discriminate H.
    + apply fixture_rows. by right.
  - apply Herin.
    + rewrite fixture_rows. intros [H|H]; discriminate H.
    + rewrite fixture_rows. intros [H|H]; discriminate H.
Defined.

Lemma delete_found (user_id : Z) (w : Database.World)
    (i : nat) (row : Models.User.t) :
  Database.pending w = [] →
  Database.constraints_ok (Database.table w) = true →
  list_find (λ u, Models.User.id u = Py.PyInt user_id) (Database.table w)
    = Some (i, row) →
  Repositories.UserRepository.delete user_id w
  = (Database.Ok true,
     {| Database.table := delete i (Database.table w);
        Database.sequence := Database.sequence w;
        Database.now := Database.now w;
        Database.entropy := Database.entropy w;
        Database.drawn := Database.drawn w;
        Database.pending := [];
        Database.flushed := [Py.PyInt user_id];
        Database.trace :=
          Database.trace w
            ++ [Database.Select "id" (Py.PyInt user_id);
                Database.SessionDelete; Database.SessionCommit] |}).
Proof.
  intros Hpending Hok Hfind.
  pose proof Hfind as (_ & Hid & _)%list_find_Some.
  unfold Repositories.UserRepository.delete,
    Repositories.UserRepository.get_by_id.
  unfold mbind at 1. unfold Database.M_bind at 1.
  rewrite query_first_run, find_by_id, Hfind. simpl.
  unfold Database.session_delete, Database.commit, Database.stage,
    Database.log, Database.effect, mbind, Database.M_bind, mret,
    Database.M_ret. simpl.
  rewrite Hpending, Hid. simpl. rewrite Hfind. simpl.
  rewrite (constraints_ok_delete _ i Hok). simpl.
  by rewrite <- !app_assoc.
Qed.

Lemma delete_absent (user_id : Z) (w : Database.World) :
  list_find (λ u, Models.User.id u = Py.PyInt user_id) (Database.table w)
    = None →
  Repositories.UserRepository.delete user_id w
  = (Database.Ok false,
     Database.traced w [Database.Select "id" (Py.PyInt user_id)]).
Proof.
  intros Hfind.
  unfold Repositories.UserRepository.delete,
    Repositories.UserRepository.get_by_id.
  unfold mbind at 1. unfold Database.M_bind at 1.
  by rewrite query_first_run, find_by_id, Hfind.
Qed.

Lemma delete_user_run (user_id : Z) (w : Database.World) :
  Services.UserService.delete_user user_id w
  = match list_find (λ u, Models.User.id u = Py.PyInt user_id)
            (Database.table w) with
    | None =>
        (Database.Ok false,
         Database.traced w [Database.Select "id" (Py.PyInt user_id)])
    | Some _ =>
        match Repositories.UserRepository.delete user_id
                (Database.traced w [Database.Select "id" (Py.PyInt user_id)])
        with
        | (Database.Ok deleted, w') => (Database.Ok deleted, w')
        | (Database.Raise e, w') => (Database.Raise e, w')
        end
    end.
Proof.
  unfold Services.UserService.delete_user,
    Repositories.UserRepository.get_by_id.
  unfold mbind at 1. unfold Database.M_bind at 1.
  rewrite query_first_run, find_by_id.
  by destruct (list_find _ _) as [[i row]|].
Qed.
(** C8.  On a session with nothing staged, over a table that satisfies its
    constraints: when no row has the id, [delete_user] returns false after
    its single query by id, and the repository is not called; when a row
    has the id, what it does after that query is [UserRepository.delete],
    whose result it returns.  [UserRepository.delete] returns true when a
    row with the id exists, and the row is then removed (the other rows
    stay, in order, and no row with the id remains); it returns false, with
    the table unchanged, when there is none. *)
Theorem delete_user_checks_once_then_delegates :
  ∀ (user_id : Z) (w : Database.World),
    Database.pending w = [] →
    Database.constraints_ok (Database.table w) = true →
    let stored :=
      ∃ u, u ∈ Database.table w ∧ Models.User.id u = Py.PyInt user_id in
    let by_id := Database.Select "id" (Py.PyInt user_id) in
    (¬ stored →
       Services.UserService.delete_user user_id w
       = (Database.Ok false, Database.traced w [by_id]))
    ∧ (stored →
         Services.UserService.delete_user user_id w
         = Repositories.UserRepository.delete user_id
             (Database.traced w [by_id]))
    ∧ (¬ stored →
         Repositories.UserRepository.delete user_id w
         = (Database.Ok false, Database.traced w [by_id]))
    ∧ (stored →
         ∃ w' before row after,
           Repositories.UserRepository.delete user_id w = (Database.Ok true, w')
           ∧ Database.table w = before ++ row :: after
           ∧ Models.User.id row = Py.PyInt user_id
           ∧ Database.table w' = before ++ after
           ∧ (∀ u, u ∈ Database.table w' →
                Models.User.id u ≠ Py.PyInt user_id)
           ∧ Database.trace w'
             = Database.trace w
                 ++ [by_id; Database.SessionDelete; Database.SessionCommit]).
Proof.
  intros user_id w Hpending Hok stored by_id. split_and!.
  - intros Habsent. rewrite delete_user_run.
    by rewrite (find_absent _ _ Habsent).
  - intros Hstored. rewrite delete_user_run.
    destruct (find_stored _ _ Hstored) as (i & row & Hfind).
    rewrite Hfind.
    by destruct (Repositories.UserRepository.delete _ _) as [[deleted|e] w'].
  - intros Habsent. apply delete_absent. by apply find_absent.
  - intros Hstored.
    destruct (find_stored _ _ Hstored) as (i & row & Hfind).
    pose proof Hfind as (Hi & Hid & _)%list_find_Some.
    eexists _, (take i (Database.table w)), row,
      (drop (S i) (Database.table w)).
    split_and!.
    + exact (delete_found user_id w i row Hpending Hok Hfind).
    + symmetry. by apply take_drop_middle.
    + done.
    + simpl. apply delete_take_drop.
    + simpl. intros u Hu Hsame.
      apply constraints_ok_spec in Hok as (Hnodup & _).
      apply list_elem_of_lookup in Hu as [j Hj].
      destruct (decide (j < i)%nat) as [Hlt|Hge].
      * rewrite list_lookup_delete_lt in Hj by done.
        assert (j = i); [|lia].
        eapply (NoDup_lookup _ j i (Py.PyInt user_id) Hnodup);
          rewrite list_lookup_fmap; [by rewrite Hj; simpl; f_equal
                                    |by rewrite Hi; simpl; f_equal].
      * rewrite list_lookup_delete_ge in Hj by lia.
        assert (S j = i); [|lia].
        eapply (NoDup_lookup _ (S j) i (Py.PyInt user_id) Hnodup);
          rewrite list_lookup_fmap; [by rewrite Hj; simpl; f_equal
                                    |by rewrite Hi; simpl; f_equal].
    + done.
Qed.

(** On the table of [carol] and [dave]: id 2 is stored, id 7 is not. *)
Lemma delete_user_checks_once_then_delegates_witness :
  Services.UserService.delete_user 7 Fixture.world
  = (Database.Ok false,
     Database.traced Fixture.world [Database.Select "id" (Py.PyInt 7)])
  ∧ Services.UserService.delete_user 2 Fixture.world
    = Repositories.UserRepository.delete 2
        (Database.traced Fixture.world [Database.Select "id" (Py.PyInt 2)])
  ∧ Repositories.UserRepository.delete 7 Fixture.world
    = (Database.Ok false,
       Database.traced Fixture.world [Database.Select "id" (Py.PyInt 7)])
  ∧ ∃ w' before row after,
      Repositories.UserRepository.delete 2 Fixture.world
      = (Database.Ok true, w')
      ∧ Database.table Fixture.world = before ++ row :: after
      ∧ Models.User.id row = Py.PyInt 2
      ∧ Database.table w' = before ++ after
      ∧ (∀ u, u ∈ Database.table w' → Models.User.id u ≠ Py.PyInt 2)
      ∧ Database.trace w'
        = Database.trace Fixture.world
            ++ [Database.Select "id" (Py.PyInt 2);
                Database.SessionDelete; Database.SessionCommit].
Proof.
  pose proof (delete_user_checks_once_then_delegates 7 Fixture.world
                eq_refl eq_refl) as (Hservice7 & _ & Hrepo7 & _).
  pose proof (delete_user_checks_once_then_delegates 2 Fixture.world
                eq_refl eq_refl) as (_ & Hservice2 & _ & Hrepo2).
  assert (H7 : ¬ ∃ u, u ∈ Database.table Fixture.world
                      ∧ Models.User.id u = Py.PyInt 7)
    by (rewrite fixture_rows; intros [H|H]; discriminate H).
  assert (H2 : ∃ u, u ∈ Database.table Fixture.world
                    ∧ Models.User.id u = Py.PyInt 2)
    by (apply fixture_rows; by right).
  split; [|split; [|split]].
  - exact (Hservice7 H7).
  - exact (Hservice2 H2).
  - exact (Hrepo7 H7).
  - exact (Hrepo2 H2).
Defined.
Lemma delete_user_keeps_rows (user_id : Z) (w : Database.World) :
  Database.pending w = [] →
  Database.table (Services.UserService.delete_user user_id w).2
    `sublist_of` Database.table w.
Proof.
  intros Hpending. rewrite delete_user_run.
  destruct (list_find _ _) as [[i row]|]; [|done].
  pose proof (delete_keeps_rows user_id
                (Database.traced w [Database.Select "id" (Py.PyInt user_id)])
                Hpending) as Hsub.
  by destruct (Repositories.UserRepository.delete _ _) as [[deleted|e] w'].
Qed.
(** ** Updating one field of a stored user *)

Section UpdateOneField.
Import Passlib Py Models Database Repositories.

Variable pwd_context : CryptContext.
Variable w : World.
Variable user : User.t.
Hypothesis nothing_staged : pending w = [].
Hypothesis constraints_hold : constraints_ok (table w) = true.
Hypothesis user_stored : user ∈ table w.




End UpdateOneField.
Section UserUpdates.
Import Passlib Py Models Database Repositories Services.



Lemma carol_stored : Fixture.carol ∈ table Fixture.world.
Proof. apply elem_of_cons. by left. Qed.


(** [update(carol, id=999)]: the row of [carol] is stored under id 999. *)
Example update_with_id_entry :
  User.id <$> table (UserRepository.update Fixture.pwd_context Fixture.carol
                       [("id", PyInt 999)] Fixture.world).2
  = [PyInt 999; PyInt 2].
Proof. reflexivity. Qed.

(** C2, as the claim states it, fails: a field map with an [id] entry makes
    [update] return the stored user under another id. *)
Lemma update_overwrites_id :
  ¬ (∀ (pwd_context : CryptContext) (w : World) (user : User.t)
       (kwargs : list (string * value)) (u' : User.t),
       pending w = [] →
       constraints_ok (table w) = true →
       user ∈ table w →
       (UserRepository.update pwd_context user kwargs w).1 = Ok u' →
       User.id u' = User.id user).
Proof.
  intros Hclaim.
  pose proof (Hclaim Fixture.pwd_context Fixture.world Fixture.carol
                [("id", PyInt 999)]
                (User.setattr
                   (User.setattr Fixture.carol "id" (PyInt 999))
                   "updated_at" (PyDateTime (now Fixture.world)))
                eq_refl eq_refl carol_stored) as Hid.
  discriminate Hid. vm_compute. reflexivity.
Qed.

(** C2, amended.  On a session with nothing staged:
    [UserRepository.update] and [UserService.update_user], given a field
    map in which every [id] entry is [None] or equal to the id of the user,
    leave the id column of the table as it was and return, when they
    return a user, a user with the id of the one passed in (for
    [update_user], the id it was called with);
    [UserRepository.add] leaves the table as it was or appends one row to
    it; after [UserService.delete_user] the table is the former table with
    rows removed, none modified. *)
Theorem ids_change_only_through_an_id_entry :
  ∀ (pwd_context : CryptContext) (w : World),
    pending w = [] →
    (∀ (user : User.t) (kwargs : list (string * value)),
       keeps_id (User.id user) kwargs →
       User.id <$> table (UserRepository.update pwd_context user kwargs w).2
         = User.id <$> table w
       ∧ ∀ u', (UserRepository.update pwd_context user kwargs w).1 = Ok u' →
               User.id u' = User.id user)
    ∧ (∀ (user_id : Z) (kwargs : list (string * value)),
         keeps_id (PyInt user_id) kwargs →
         User.id
           <$> table (UserService.update_user pwd_context user_id kwargs w).2
           = User.id <$> table w
         ∧ ∀ u', (UserService.update_user pwd_context user_id kwargs w).1
                   = Ok (Some u') →
                 User.id u' = PyInt user_id)
    ∧ (∀ (username email password : string) (full_name : option string)
         (is_active : bool),
         table (UserRepository.add pwd_context username email password
                  full_name is_active w).2 = table w
         ∨ ∃ new,
             table (UserRepository.add pwd_context username email password
                      full_name is_active w).2 = table w ++ [new])
    ∧ (∀ user_id : Z,
         table (UserService.delete_user user_id w).2 `sublist_of` table w).
Proof.
  intros pwd_context w Hpending. split_and!.
  - intros user kwargs Hkeep. by apply update_keeps_ids.
  - intros user_id kwargs Hkeep. by apply update_user_keeps_ids.
  - intros. by apply add_keeps_rows.
  - intros. by apply delete_user_keeps_rows.
Qed.

Lemma keeps_id_example (current : value) :
  keeps_id current
    [("email", PyStr "carol@new.example"); ("id", PyNone);
     ("password", PyStr "newpassword")].
Proof.
  intros v Hin.
  apply elem_of_cons in Hin as [[= ]|Hin].
  apply elem_of_cons in Hin as [[= ->]|Hin]; [by left|].
  apply list_elem_of_singleton in Hin as [= ].
Qed.

(** On the table of [carol] and [dave]: an update of [carol] that changes
    her email and password and names [id] with [None], the same through
    the service, the addition of "erin" and the deletion of [dave]. *)
Lemma ids_change_only_through_an_id_entry_witness :
  let kwargs :=
    [("email", PyStr "carol@new.example"); ("id", PyNone);
     ("password", PyStr "newpassword")] in
  (User.id
     <$> table (UserRepository.update Fixture.pwd_context Fixture.carol
                  kwargs Fixture.world).2
     = [PyInt 1; PyInt 2]
   ∧ ∀ u', (UserRepository.update Fixture.pwd_context Fixture.carol
              kwargs Fixture.world).1 = Ok u' →
           User.id u' = PyInt 1)
  ∧ (User.id
       <$> table (UserService.update_user Fixture.pwd_context 1
                    kwargs Fixture.world).2
       = [PyInt 1; PyInt 2]
     ∧ ∀ u', (UserService.update_user Fixture.pwd_context 1
                kwargs Fixture.world).1 = Ok (Some u') →
             User.id u' = PyInt 1)
  ∧ (table (UserRepository.add Fixture.pwd_context "erin"
              "erin@example.com" "Secret123" None true Fixture.world).2
       = table Fixture.world
     ∨ ∃ new,
         table (UserRepository.add Fixture.pwd_context "erin"
                  "erin@example.com" "Secret123" None true Fixture.world).2
         = table Fixture.world ++ [new])
  ∧ table (UserService.delete_user 2 Fixture.world).2
      `sublist_of` table Fixture.world.
Proof.
  intros kwargs.
  destruct (ids_change_only_through_an_id_entry Fixture.pwd_context
              Fixture.world eq_refl)
    as (Hupdate & Hservice & Hadd & Hdelete).
  split; [|split; [|split]].
  - exact (Hupdate Fixture.carol kwargs (keeps_id_example _)).
  - exact (Hservice 1 kwargs (keeps_id_example _)).
  - apply Hadd.
  - apply Hdelete.
Defined.

End UserUpdates.

(** * Further properties of the item list *)

Section MoreItems.
Import Main.

Implicit Types (items before after : list Item.t) (item : Item.t).

Lemma read_item_nil (item_id : Z) : read_item item_id [] = Raised not_found.
Proof. reflexivity. Qed.

Lemma read_item_cons (item_id : Z) item items :
  read_item item_id (item :: items)
  = if decide (Item.id item = item_id) then Returned item
    else read_item item_id items.
Proof.
  unfold read_item. simpl. case_decide; [done|].
  by destruct (list_find _ items) as [[i x]|].
Qed.

Lemma read_item_app (item_id : Z) before after :
  read_item item_id (before ++ after)
  = match read_item item_id before with
    | Returned item => Returned item
    | _ => read_item item_id after
    end.
Proof.
  induction before as [|x before IH]; [done|].
  simpl. rewrite !read_item_cons. by case_decide.
Qed.

Lemma read_item_absent (item_id : Z) items :
  Forall (λ item, Item.id item ≠ item_id) items →
  read_item item_id items = Raised not_found.
Proof.
  induction 1 as [|x items Hx _ IH]; [done|].
  rewrite read_item_cons. by case_decide.
Qed.

Lemma read_item_outcome (item_id : Z) items :
  (∃ item, read_item item_id items = Returned item)
  ∨ read_item item_id items = Raised not_found.
Proof.
  unfold read_item. destruct (list_find _ _) as [[i x]|]; eauto.
Qed.

End MoreItems.

(** X1.  [GET /items/{id}] returns an item exactly when the list splits as
    [before ++ item :: after] with [item] the first item of that id, and
    raises 404 "Item not found" exactly when no item has the id; it has no
    other outcome. *)
Theorem read_item_first_match_or_404 :
  ∀ (item_id : Z) (items : list Main.Item.t),
    (∀ item,
       Main.read_item item_id items = Returned item
       ↔ ∃ before after,
           items = before ++ item :: after
           ∧ Main.Item.id item = item_id
           ∧ Forall (λ other, Main.Item.id other ≠ item_id) before)
    ∧ (Main.read_item item_id items = Raised Main.not_found
       ↔ Forall (λ other, Main.Item.id other ≠ item_id) items)
    ∧ ((∃ item, Main.read_item item_id items = Returned item)
       ∨ Main.read_item item_id items = Raised Main.not_found).
Proof.
  intros item_id items. split_and!.
  - intros item. split.
    + unfold Main.read_item.
      destruct (list_find _ items) as [[i x]|] eqn:Hfind; [|done].
      intros [= ->].
      pose proof Hfind as (Hi & Hid & Hleast)%list_find_Some.
      exists (take i items), (drop (S i) items). split_and!.
      * symmetry. by apply take_drop_middle.
      * done.
      * apply Forall_lookup. intros j y Hj.
        apply lookup_take_Some in Hj as [Hj Hlt]. by eapply Hleast.
    + intros (before & after & -> & Hid & Hbefore).
      rewrite read_item_app, (read_item_absent _ _ Hbefore).
      rewrite read_item_cons. by case_decide.
  - split.
    + unfold Main.read_item.
      destruct (list_find _ items) as [[i x]|] eqn:Hfind; [done|].
      intros _. by apply list_find_None in Hfind.
    + apply read_item_absent.
  - apply read_item_outcome.
Qed.
Section EditAndCompose.
Import Main.

Implicit Types (items before after : list Item.t) (item target : Item.t).

(** The item [PUT /items/{id}] writes. *)
Lemma item_split (item_id : Z) items :
  (∃ before target after,
     items = before ++ target :: after
     ∧ Item.id target = item_id
     ∧ Forall (λ other, Item.id other ≠ item_id) before
     ∧ list_find (λ item, Item.id item = item_id) items
       = Some (length before, target))
  ∨ (Forall (λ other, Item.id other ≠ item_id) items
     ∧ list_find (λ item, Item.id item = item_id) items = None).
Proof.
  destruct (list_find (λ item, Item.id item = item_id) items)
    as [[i target]|] eqn:Hfind.
  - left. pose proof Hfind as (Hi & Hid & Hleast)%list_find_Some.
    exists (take i items), target, (drop (S i) items).
    assert (Hlen : length (take i items) = i).
    { apply length_take_le. apply lookup_lt_Some in Hi. lia. }
    split_and!.
    + symmetry. by apply take_drop_middle.
    + done.
    + apply Forall_lookup. intros j y Hj.
      apply lookup_take_Some in Hj as [Hj Hlt]. by eapply Hleast.
    + by rewrite Hlen.
  - right. split; [|done]. by apply list_find_None in Hfind.
Qed.

Lemma insert_middle {A : Type} (before after : list A) (x y : A) :
  <[length before := y]> (before ++ x :: after) = before ++ y :: after.
Proof.
  rewrite insert_app_r_alt by lia. by rewrite Nat.sub_diag.
Qed.

Lemma delete_middle {A : Type} (before after : list A) (x : A) :
  delete (length before) (before ++ x :: after) = before ++ after.
Proof.
  induction before as [|b before IH]; [done|]. simpl. by rewrite IH.
Qed.

Lemma edit_item_split (item_id : Z) (data : CreateItem.t)
    before target after :
  Item.id target = item_id →
  Forall (λ other, Item.id other ≠ item_id) before →
  edit_item item_id data (before ++ target :: after)
  = (Returned (updated_item item_id data),
     before ++ updated_item item_id data :: after).
Proof.
  intros Hid Hbefore.
  assert (Hfind : list_find (λ item, Item.id item = item_id)
                    (before ++ target :: after)
                  = Some (length before, target)).
  { apply list_find_Some. split_and!.
    - by rewrite lookup_app_r, Nat.sub_diag.
    - done.
    - intros j y Hj Hlt. rewrite lookup_app_l in Hj by done.
      by eapply Forall_lookup_1 in Hbefore. }
  unfold edit_item. rewrite Hfind. by rewrite insert_middle.
Qed.

Lemma delete_item_split (item_id : Z) before target after :
  Item.id target = item_id →
  Forall (λ other, Item.id other ≠ item_id) before →
  delete_item item_id (before ++ target :: after)
  = (Returned tt, before ++ after).
Proof.
  intros Hid Hbefore.
  assert (Hfind : list_find (λ item, Item.id item = item_id)
                    (before ++ target :: after)
                  = Some (length before, target)).
  { apply list_find_Some. split_and!.
    - by rewrite lookup_app_r, Nat.sub_diag.
    - done.
    - intros j y Hj Hlt. rewrite lookup_app_l in Hj by done.
      by eapply Forall_lookup_1 in Hbefore. }
  unfold delete_item. rewrite Hfind. by rewrite delete_middle.
Qed.

Lemma edit_item_absent (item_id : Z) (data : CreateItem.t) items :
  Forall (λ other, Item.id other ≠ item_id) items →
  edit_item item_id data items = (Raised not_found, items).
Proof.
  intros Habsent. unfold edit_item.
  by rewrite (proj2 (list_find_None _ _) Habsent).
Qed.

Lemma delete_item_absent (item_id : Z) items :
  Forall (λ other, Item.id other ≠ item_id) items →
  delete_item item_id items = (Raised not_found, items).
Proof.
  intros Habsent. unfold delete_item.
  by rewrite (proj2 (list_find_None _ _) Habsent).
Qed.

End EditAndCompose.
Lemma seeded_ids_distinct : NoDup (Main.Item.id <$> Main.items_db).
Proof. apply (bool_decide_unpack _). by vm_compute. Qed.

Lemma next_item_id_fresh (items : list Main.Item.t) :
  Forall (λ other, Main.Item.id other ≠ Main.get_next_item_id items) items.
Proof.
  apply Forall_forall. intros item Hin.
  pose proof (get_next_item_id_above items item Hin). lia.
Qed.

Lemma edit_item_ids (item_id : Z) (data : Main.CreateItem.t)
    (items : list Main.Item.t) :
  Main.Item.id <$> (Main.edit_item item_id data items).2
  = Main.Item.id <$> items.
Proof.
  destruct (item_split item_id items)
    as [(before & target & after & -> & Hid & Hbefore & _)|[Habsent _]].
  - rewrite (edit_item_split _ data _ _ _ Hid Hbefore).
    simpl. rewrite !fmap_app, !fmap_cons. simpl. by rewrite Hid.
  - by rewrite (edit_item_absent _ data _ Habsent).
Qed.

(** X2.  [PUT /items/{id}], when some item has the id, replaces the first
    such item, in place, by the item made of the id and the payload, and
    returns that item; when no item has the id it raises 404 and the list is
    unchanged.  In both cases the ids of the list, in order, are as
    before. *)
Theorem edit_item_replaces_first_match :
  ∀ (item_id : Z) (data : Main.CreateItem.t) (items : list Main.Item.t),
    ((∃ item, item ∈ items ∧ Main.Item.id item = item_id) →
       ∃ before target after,
         items = before ++ target :: after
         ∧ Main.Item.id target = item_id
         ∧ Forall (λ other, Main.Item.id other ≠ item_id) before
         ∧ Main.edit_item item_id data items
           = (Returned (updated_item item_id data),
              before ++ updated_item item_id data :: after))
    ∧ ((∀ item, item ∈ items → Main.Item.id item ≠ item_id) →
         Main.edit_item item_id data items = (Raised Main.not_found, items))
    ∧ Main.Item.id <$> (Main.edit_item item_id data items).2
      = Main.Item.id <$> items.
Proof.
  intros item_id data items.
  destruct (item_split item_id items)
    as [(before & target & after & -> & Hid & Hbefore & _)|[Habsent _]].
  - rewrite (edit_item_split _ data _ _ _ Hid Hbefore). split_and!.
    + intros _. by exists before, target, after.
    + intros Hnone. destruct (Hnone target); [|done].
      apply elem_of_app. right. by left.
    + rewrite <- (edit_item_split _ data _ _ _ Hid Hbefore).
      apply edit_item_ids.
  - rewrite (edit_item_absent _ data _ Habsent). split_and!; [|done..].
    intros (item & Hin & Hid). rewrite Forall_forall in Habsent.
    by destruct (Habsent item Hin).
Qed.

Lemma edit_item_replaces_first_match_witness :
  (∃ before target after,
     Main.items_db = before ++ target :: after
     ∧ Main.Item.id target = 2
     ∧ Forall (λ other, Main.Item.id other ≠ 2) before
     ∧ Main.edit_item 2
         {| Main.CreateItem.name := "Trackball";
            Main.CreateItem.description := None |} Main.items_db
       = (Returned
            (updated_item 2
               {| Main.CreateItem.name := "Trackball";
                  Main.CreateItem.description := None |}),
          before
            ++ updated_item 2
                 {| Main.CreateItem.name := "Trackball";
                    Main.CreateItem.description := None |} :: after))
  ∧ Main.edit_item 9999
      {| Main.CreateItem.name := "Ghost Item";
         Main.CreateItem.description := None |} Main.items_db
    = (Raised Main.not_found, Main.items_db).
Proof.
  split.
  - apply (proj1 (edit_item_replaces_first_match 2
                    {| Main.CreateItem.name := "Trackball";
                       Main.CreateItem.description := None |}
                    Main.items_db)).
    exists {| Main.Item.id := 2; Main.Item.name := "Mouse";
              Main.Item.description := Some "Wireless optical mouse" |}.
    split; [|reflexivity].
    unfold Main.items_db. apply elem_of_cons; right.
    apply elem_of_cons; left. reflexivity.
  - apply (proj1 (proj2 (edit_item_replaces_first_match 9999
                           {| Main.CreateItem.name := "Ghost Item";
                              Main.CreateItem.description := None |}
                           Main.items_db))).
    intros item Hin. unfold Main.items_db in Hin.
    repeat (apply elem_of_cons in Hin as [->|Hin]; [simpl; lia|]).
    by apply elem_of_nil in Hin.
Defined.

(** X3.  On a list whose ids are pairwise distinct, the ids are still
    pairwise distinct after [POST /items], after [PUT /items/{id}] and after
    [DELETE /items/{id}], whatever their arguments. *)
Theorem item_ids_stay_distinct :
  ∀ (items : list Main.Item.t),
    NoDup (Main.Item.id <$> items) →
    (∀ data, NoDup (Main.Item.id <$> (Main.add_item data items).2))
    ∧ (∀ item_id data,
         NoDup (Main.Item.id <$> (Main.edit_item item_id data items).2))
    ∧ (∀ item_id,
         NoDup (Main.Item.id <$> (Main.delete_item item_id items).2)).
Proof.
  intros items Hdistinct. split_and!.
  - intros data. simpl. rewrite fmap_app. apply NoDup_app. split_and!.
    + done.
    + intros x (item & -> & Hin)%list_elem_of_fmap Hnew. simpl in Hnew.
      apply list_elem_of_singleton in Hnew.
      pose proof (get_next_item_id_above items item Hin). lia.
    + simpl. apply NoDup_singleton.
  - intros item_id data.
    by rewrite edit_item_ids.
  - intros item_id. unfold Main.delete_item.
    destruct (list_find _ _) as [[i target]|]; [|done]. simpl.
    rewrite list_fmap_delete.
    eapply sublist_NoDup; [exact Hdistinct|apply sublist_delete].
Qed.

Lemma item_ids_stay_distinct_witness :
  (∀ data, NoDup (Main.Item.id <$> (Main.add_item data Main.items_db).2))
  ∧ (∀ item_id data,
       NoDup (Main.Item.id
                <$> (Main.edit_item item_id data Main.items_db).2))
  ∧ (∀ item_id,
       NoDup (Main.Item.id <$> (Main.delete_item item_id Main.items_db).2)).
Proof. exact (item_ids_stay_distinct Main.items_db seeded_ids_distinct). Defined.
Lemma read_item_skips (other item_id : Z) (before after : list Main.Item.t)
    (x : Main.Item.t) :
  Main.Item.id x = item_id → other ≠ item_id →
  Main.read_item other (before ++ x :: after)
  = Main.read_item other (before ++ after).
Proof.
  intros Hid Hother. rewrite !read_item_app, read_item_cons.
  case_decide; [congruence|done].
Qed.

(** X4.  On a list whose ids are pairwise distinct, fetching an id right
    after deleting it raises 404, whether or not the id was present. *)
Theorem deleted_item_is_not_found :
  ∀ (item_id : Z) (items : list Main.Item.t),
    NoDup (Main.Item.id <$> items) →
    Main.read_item item_id (Main.delete_item item_id items).2
    = Raised Main.not_found.
Proof.
  intros item_id items Hdistinct.
  destruct (item_split item_id items)
    as [(before & target & after & -> & Hid & Hbefore & _)|[Habsent _]].
  - rewrite (delete_item_split _ _ _ _ Hid Hbefore). simpl.
    apply read_item_absent. apply Forall_app. split; [done|].
    apply Forall_forall. intros other Hin Hsame.
    rewrite fmap_app, fmap_cons in Hdistinct.
    apply NoDup_app in Hdistinct as (_ & _ & Hrest).
    apply NoDup_cons in Hrest as [Hfresh _]. apply Hfresh.
    rewrite Hid, <- Hsame. apply list_elem_of_fmap. eauto.
  - rewrite (delete_item_absent _ _ Habsent). by apply read_item_absent.
Qed.

Lemma deleted_item_is_not_found_witness :
  Main.read_item 2 (Main.delete_item 2 Main.items_db).2
  = Raised Main.not_found.
Proof.
  exact (deleted_item_is_not_found 2 Main.items_db seeded_ids_distinct).
Defined.

(** X5.  When some item has the id, fetching the id right after
    [PUT /items/{id}] returns the item the PUT wrote. *)
Theorem edited_item_is_read_back :
  ∀ (item_id : Z) (data : Main.CreateItem.t) (items : list Main.Item.t),
    (∃ item, item ∈ items ∧ Main.Item.id item = item_id) →
    Main.read_item item_id (Main.edit_item item_id data items).2
    = Returned (updated_item item_id data).
Proof.
  intros item_id data items (item & Hin & Hitem).
  destruct (item_split item_id items)
    as [(before & target & after & -> & Hid & Hbefore & _)|[Habsent _]].
  - rewrite (edit_item_split _ data _ _ _ Hid Hbefore). simpl.
    rewrite read_item_app, (read_item_absent _ _ Hbefore), read_item_cons.
    by case_decide.
  - rewrite Forall_forall in Habsent. by destruct (Habsent item Hin).
Qed.

Lemma edited_item_is_read_back_witness :
  Main.read_item 3
    (Main.edit_item 3
       {| Main.CreateItem.name := "Keyboard Pro";
          Main.CreateItem.description := Some "Hot-swappable" |}
       Main.items_db).2
  = Returned
      (updated_item 3
         {| Main.CreateItem.name := "Keyboard Pro";
            Main.CreateItem.description := Some "Hot-swappable" |}).
Proof.
  apply edited_item_is_read_back.
  exists {| Main.Item.id := 3; Main.Item.name := "Keyboard";
            Main.Item.description := Some "Mechanical keyboard" |}.
  split; [|reflexivity].
  unfold Main.items_db. do 2 (apply elem_of_cons; right).
  apply elem_of_cons; left. reflexivity.
Defined.

(** X6.  Items with another id are read as before: [PUT] and [DELETE] of
    one id do not change what [GET] returns for any other id, and [POST]
    does not change what [GET] returns for any id other than the one it
    assigns. *)
Theorem other_items_are_read_as_before :
  ∀ (other item_id : Z) (data : Main.CreateItem.t)
    (items : list Main.Item.t),
    (other ≠ item_id →
       Main.read_item other (Main.edit_item item_id data items).2
       = Main.read_item other items
       ∧ Main.read_item other (Main.delete_item item_id items).2
         = Main.read_item other items)
    ∧ (other ≠ Main.get_next_item_id items →
         Main.read_item other (Main.add_item data items).2
         = Main.read_item other items).
Proof.
  intros other item_id data items. split.
  - intros Hother.
    destruct (item_split item_id items)
      as [(before & target & after & -> & Hid & Hbefore & _)|[Habsent _]].
    + rewrite (edit_item_split _ data _ _ _ Hid Hbefore),
        (delete_item_split _ _ _ _ Hid Hbefore). simpl.
      rewrite (read_item_skips other item_id before after target Hid Hother).
      split; [|done].
      by apply (read_item_skips other item_id).
    + by rewrite (edit_item_absent _ data _ Habsent),
        (delete_item_absent _ _ Habsent).
  - intros Hother. simpl.
    rewrite (read_item_skips other (Main.get_next_item_id items) items []
               {| Main.Item.id := Main.get_next_item_id items;
                  Main.Item.name := Main.CreateItem.name data;
                  Main.Item.description := Main.CreateItem.description data |}
               eq_refl Hother).
    by rewrite app_nil_r.
Qed.

Lemma other_items_are_read_as_before_witness :
  (Main.read_item 1
     (Main.edit_item 2
        {| Main.CreateItem.name := "Trackball";
           Main.CreateItem.description := None |} Main.items_db).2
   = Main.read_item 1 Main.items_db
   ∧ Main.read_item 1 (Main.delete_item 2 Main.items_db).2
     = Main.read_item 1 Main.items_db)
  ∧ Main.read_item 3
      (Main.add_item
         {| Main.CreateItem.name := "Trackball";
            Main.CreateItem.description := None |} Main.items_db).2
    = Main.read_item 3 Main.items_db.
Proof.
  split.
  - apply (proj1 (other_items_are_read_as_before 1 2
                    {| Main.CreateItem.name := "Trackball";
                       Main.CreateItem.description := None |}
                    Main.items_db)). lia.
  - apply (proj2 (other_items_are_read_as_before 3 2
                    {| Main.CreateItem.name := "Trackball";
                       Main.CreateItem.description := None |}
                    Main.items_db)). vm_compute. discriminate.
Defined.

(** X7.  Deleting the item a [POST /items] just created gives back exactly
    the list as it was before the POST, so the next POST assigns the same
    id again. *)
Theorem delete_undoes_add :
  ∀ (data : Main.CreateItem.t) (items : list Main.Item.t),
    Main.delete_item (Main.get_next_item_id items)
      (Main.add_item data items).2 = (Returned tt, items)
    ∧ ∀ data',
        (Main.add_item data'
           (Main.delete_item (Main.get_next_item_id items)
              (Main.add_item data items).2).2).1
        = Returned
            {| Main.Item.id := Main.get_next_item_id items;
               Main.Item.name := Main.CreateItem.name data';
               Main.Item.description := Main.CreateItem.description data' |}.
Proof.
  intros data items.
  assert (Hdelete :
    Main.delete_item (Main.get_next_item_id items)
      (Main.add_item data items).2 = (Returned tt, items)).
  { simpl.
    rewrite (delete_item_split (Main.get_next_item_id items) items
               {| Main.Item.id := Main.get_next_item_id items;
                  Main.Item.name := Main.CreateItem.name data;
                  Main.Item.description := Main.CreateItem.description data |}
               [] eq_refl (next_item_id_fresh items)).
    by rewrite app_nil_r. }
  split; [done|]. intros data'. by rewrite Hdelete.
Qed.
(** * Further properties of registration and login *)

Lemma post_register_new pwd_context salt body users_db :
  Main.password_complexity (Main.UserCreate.password body)
    = Main.Valid (Main.UserCreate.password body) →
  users_db !! Main.UserCreate.username body = None →
  (Main.post_register pwd_context salt body users_db).2
  = <[Main.UserCreate.username body :=
        {| Main.UserInDB.username := Main.UserCreate.username body;
           Main.UserInDB.email := Main.UserCreate.email body;
           Main.UserInDB.full_name := Main.UserCreate.full_name body;
           Main.UserInDB.hashed_password :=
             Passlib.hash pwd_context salt
               (Main.UserCreate.password body) |}]> users_db.
Proof.
  intros Hvalid Hnew. unfold Main.post_register. rewrite Hvalid.
  by rewrite register_user_new_username.
Qed.

Lemma post_register_other pwd_context salt body users_db (name : string) :
  name ≠ Main.UserCreate.username body →
  (Main.post_register pwd_context salt body users_db).2 !! name
  = users_db !! name.
Proof.
  intros Hname. unfold Main.post_register.
  destruct (Main.password_complexity _); [|done].
  unfold Main.register_user, Main.get_user.
  destruct (users_db !! Main.UserCreate.username body); [done|].
  simpl. by rewrite lookup_insert_ne.
Qed.

(** X8.  After a registration that is accepted (new username, password
    passing the validator), a login under that username is decided by the
    hasher's verdict on the attempted password against the digest computed
    at registration: success with the user's name when it verifies, 401
    when it does not, and an uncaught error when the hasher raises. *)
Theorem login_after_register :
  ∀ (pwd_context : Passlib.CryptContext) (salt : nat)
    (body : Main.UserCreate.t) (users_db : gmap string Main.UserInDB.t)
    (attempt : string),
    Main.password_complexity (Main.UserCreate.password body)
      = Main.Valid (Main.UserCreate.password body) →
    users_db !! Main.UserCreate.username body = None →
    Main.login_user pwd_context
      {| Main.UserLogin.username := Main.UserCreate.username body;
         Main.UserLogin.password := attempt |}
      (Main.post_register pwd_context salt body users_db).2
    = match Passlib.verify pwd_context attempt
              (Passlib.hash pwd_context salt (Main.UserCreate.password body))
      with
      | Some true =>
          Returned ("Login successful for user: "
                      +:+ Main.UserCreate.username body)
      | Some false => Raised Main.bad_credentials
      | None => Uncaught
      end.
Proof.
  intros pwd_context salt body users_db attempt Hvalid Hnew.
  rewrite (post_register_new _ _ _ _ Hvalid Hnew).
  unfold Main.login_user, Main.get_user, Main.verify_password. simpl.
  by rewrite lookup_insert_eq.
Qed.

(** [bob] registers and logs in with his password, then with another. *)
Lemma login_after_register_witness :
  Main.login_user Fixture.pwd_context
    {| Main.UserLogin.username := "bob";
       Main.UserLogin.password := "Builder2go" |}
    (Main.post_register Fixture.pwd_context 3 Fixture.bob
       Fixture.users_db).2
  = Returned "Login successful for user: bob"
  ∧ Main.login_user Fixture.pwd_context
      {| Main.UserLogin.username := "bob";
         Main.UserLogin.password := "Builder2stay" |}
      (Main.post_register Fixture.pwd_context 3 Fixture.bob
         Fixture.users_db).2
    = Raised Main.bad_credentials.
Proof.
  assert (Hnew : Fixture.users_db !! "bob" = None)
    by (unfold Fixture.users_db; by apply lookup_singleton_ne).
  split.
  - exact (login_after_register Fixture.pwd_context 3 Fixture.bob
             Fixture.users_db "Builder2go" eq_refl Hnew).
  - exact (login_after_register Fixture.pwd_context 3 Fixture.bob
             Fixture.users_db "Builder2stay" eq_refl Hnew).
Defined.



(** X10.  A registration request, accepted or not, changes nothing for the
    other usernames: their records are as before, and so is the outcome of
    every login under another username. *)
Theorem registration_leaves_other_users :
  ∀ (pwd_context : Passlib.CryptContext) (salt : nat)
    (body : Main.UserCreate.t) (users_db : gmap string Main.UserInDB.t)
    (credentials : Main.UserLogin.t),
    Main.UserLogin.username credentials ≠ Main.UserCreate.username body →
    Main.get_user (Main.post_register pwd_context salt body users_db).2
      (Main.UserLogin.username credentials)
    = Main.get_user users_db (Main.UserLogin.username credentials)
    ∧ Main.login_user pwd_context credentials
        (Main.post_register pwd_context salt body users_db).2
      = Main.login_user pwd_context credentials users_db.
Proof.
  intros pwd_context salt body users_db credentials Hother.
  unfold Main.login_user, Main.get_user.
  by rewrite (post_register_other _ _ _ _ _ Hother).
Qed.

Lemma registration_leaves_other_users_witness :
  Main.get_user
    (Main.post_register Fixture.pwd_context 3 Fixture.bob
       Fixture.users_db).2 "alice"
  = Main.get_user Fixture.users_db "alice"
  ∧ Main.login_user Fixture.pwd_context
      {| Main.UserLogin.username := "alice";
         Main.UserLogin.password := "Wonderland1" |}
      (Main.post_register Fixture.pwd_context 3 Fixture.bob
         Fixture.users_db).2
    = Main.login_user Fixture.pwd_context
        {| Main.UserLogin.username := "alice";
           Main.UserLogin.password := "Wonderland1" |}
        Fixture.users_db.
Proof.
  apply (registration_leaves_other_users Fixture.pwd_context 3 Fixture.bob
           Fixture.users_db
           {| Main.UserLogin.username := "alice";
              Main.UserLogin.password := "Wonderland1" |}).
  discriminate.
Defined.

(** * Further properties of the user store *)

Section MoreSession.
Import Passlib Py Models Database Repositories Services.

Implicit Types (w : World) (rows : list User.t) (u row user : User.t).

Lemma query_first_result (column : string) (v : value) w :
  ∃ r, query_first column v w = (Ok r, traced w [Select column v])
       ∧ (r = None ↔ ∀ u, u ∈ table w → User.getattr u column ≠ Some v)
       ∧ (∀ u, r = Some u → u ∈ table w ∧ User.getattr u column = Some v).
Proof.
  rewrite query_first_run. eexists. split; [reflexivity|].
  destruct (list_find _ (table w)) as [[i x]|] eqn:Hfind; simpl.
  - pose proof Hfind as (Hi & Hx & _)%list_find_Some. split.
    + split; [done|]. intros Hnone.
      destruct (Hnone x); [by eapply list_elem_of_lookup_2|done].
    + intros u [= <-]. split; [by eapply list_elem_of_lookup_2|done].
  - apply list_find_None in Hfind. rewrite Forall_forall in Hfind.
    split; [|done]. split; [by intros _|done].
Qed.

End MoreSession.

(** X11.  The three lookups of the repository are reads: the world they
    leave is the one they found with the query recorded.  Each returns a
    row of the table that holds the value asked for, and returns [None]
    exactly when no row of the table holds it. *)
Theorem lookups_read_the_table :
  ∀ (w : Database.World) (user_id : Z) (username email : Py.value),
    (∃ r,
       Repositories.UserRepository.get_by_id user_id w
         = (Database.Ok r,
            Database.traced w [Database.Select "id" (Py.PyInt user_id)])
       ∧ (r = None ↔ ∀ u, u ∈ Database.table w →
                          Models.User.id u ≠ Py.PyInt user_id)
       ∧ (∀ u, r = Some u →
               u ∈ Database.table w ∧ Models.User.id u = Py.PyInt user_id))
    ∧ (∃ r,
         Repositories.UserRepository.get_by_username username w
           = (Database.Ok r,
              Database.traced w [Database.Select "username" username])
         ∧ (r = None ↔ ∀ u, u ∈ Database.table w →
                            Models.User.username u ≠ username)
         ∧ (∀ u, r = Some u →
                 u ∈ Database.table w ∧ Models.User.username u = username))
    ∧ (∃ r,
         Repositories.UserRepository.get_by_email email w
           = (Database.Ok r,
              Database.traced w [Database.Select "email" email])
         ∧ (r = None ↔ ∀ u, u ∈ Database.table w →
                            Models.User.email u ≠ email)
         ∧ (∀ u, r = Some u →
                 u ∈ Database.table w ∧ Models.User.email u = email)).
Proof.
  intros w user_id username email. split_and!.
  - destruct (query_first_result "id" (Py.PyInt user_id) w)
      as (r & Hrun & Hnone & Hsome).
    exists r. split; [exact Hrun|]. split.
    + rewrite Hnone. split; intros H u Hu; specialize (H u Hu);
        unfold Models.User.getattr in *; simpl in *; congruence.
    + intros u Hu. destruct (Hsome u Hu) as [Hin Hcol].
      unfold Models.User.getattr in Hcol. simpl in Hcol.
      split; [done|congruence].
  - destruct (query_first_result "username" username w)
      as (r & Hrun & Hnone & Hsome).
    exists r. split; [exact Hrun|]. split.
    + rewrite Hnone. split; intros H u Hu; specialize (H u Hu);
        unfold Models.User.getattr in *; simpl in *; congruence.
    + intros u Hu. destruct (Hsome u Hu) as [Hin Hcol].
      unfold Models.User.getattr in Hcol. simpl in Hcol.
      split; [done|congruence].
  - destruct (query_first_result "email" email w)
      as (r & Hrun & Hnone & Hsome).
    exists r. split; [exact Hrun|]. split.
    + rewrite Hnone. split; intros H u Hu; specialize (H u Hu);
        unfold Models.User.getattr in *; simpl in *; congruence.
    + intros u Hu. destruct (Hsome u Hu) as [Hin Hcol].
      unfold Models.User.getattr in Hcol. simpl in Hcol.
      split; [done|congruence].
Qed.
Section AddRow.
Import Passlib Py Models Database Repositories Services.

Implicit Types (w : World) (rows : list User.t) (u row user : User.t).

Lemma constraints_ok_snoc rows row :
  constraints_ok rows = true →
  (∀ u, u ∈ rows → User.id u ≠ User.id row) →
  (∀ u, u ∈ rows → User.username u ≠ User.username row) →
  (∀ u, u ∈ rows → User.email u ≠ User.email row) →
  not_null row →
  constraints_ok (rows ++ [row]) = true.
Proof.
  rewrite !constraints_ok_spec.
  intros (Hid & Hname & Hmail & Hnn) Hfid Hfname Hfmail Hrow.
  rewrite !fmap_app. simpl.
  assert (Hsnoc : ∀ (f : User.t → value),
            NoDup (f <$> rows) → (∀ u, u ∈ rows → f u ≠ f row) →
            NoDup ((f <$> rows) ++ [f row])).
  { intros f Hnodup Hfresh. apply NoDup_app. split_and!; [done| |].
    - intros x (u & -> & Hu)%list_elem_of_fmap Hx.
      apply list_elem_of_singleton in Hx. by destruct (Hfresh u Hu).
    - apply NoDup_singleton. }
  split_and!; [by apply Hsnoc..|].
  apply Forall_app. split; [done|]. by apply Forall_singleton.
Qed.

Lemma find_snoc (P : User.t → Prop) `{!∀ u, Decision (P u)} rows row :
  (∀ u, u ∈ rows → ¬ P u) → P row →
  list_find P (rows ++ [row]) = Some (length rows, row).
Proof.
  intros Hnone Hrow. apply list_find_Some. split_and!.
  - by rewrite lookup_app_r, Nat.sub_diag.
  - done.
  - intros j y Hj Hlt. rewrite lookup_app_l in Hj by done.
    apply Hnone. by eapply list_elem_of_lookup_2.
Qed.

Lemma add_accepted pwd_context w username email password full_name
    is_active :
  accepts w username email →
  let row :=
    new_row pwd_context w username email password full_name is_active in
  UserRepository.add pwd_context username email password full_name
    is_active w
  = (Ok row,
     {| table := table w ++ [row];
        sequence := sequence w + 1;
        now := now w;
        entropy := entropy w;
        drawn := S (drawn w);
        pending := [];
        flushed := [PyInt (sequence w)];
        trace := trace w ++ [HashPassword (PyStr password); SessionAdd;
                             SessionCommit; SessionRefresh] |}).
Proof.
  intros (Hpending & Hok & Hname & Hmail & Hid) row.
  assert (Hok' : constraints_ok (table w ++ [row]) = true).
  { apply constraints_ok_snoc; try done. }
  assert (Hfind : list_find (λ u, User.id u = PyInt (sequence w))
                    (table w ++ [row]) = Some (length (table w), row)).
  { apply (find_snoc (λ u, User.id u = PyInt (sequence w)));
      [exact Hid|reflexivity]. }
  unfold UserRepository.add, UserRepository._hash_password, session_add,
    commit, refresh, stage, log, effect, mbind, M_bind, mret, M_ret. simpl.
  rewrite Hpending. simpl.
  change (insert_defaults _ _ _) with row.
  rewrite Hok'. simpl. rewrite Hfind. simpl.
  unfold traced. simpl. by rewrite <- !app_assoc.
Qed.

End AddRow.
Section AddRowProperties.
Import Passlib Py Models Database Repositories Services.

Lemma fixture_accepts_erin :
  accepts Fixture.world "erin" "erin@example.com".
Proof.
  unfold accepts. split_and!; [reflexivity|reflexivity|..];
    intros u Hu; simpl in Hu;
    (apply elem_of_cons in Hu as [->|Hu]; [discriminate|]);
    apply list_elem_of_singleton in Hu as ->; discriminate.
Qed.

Lemma add_rejected pwd_context w username email password full_name
    is_active :
  pending w = [] →
  (∃ u, u ∈ table w
        ∧ (User.username u = PyStr username ∨ User.email u = PyStr email)) →
  UserRepository.add pwd_context username email password full_name
    is_active w
  = (Raise IntegrityError,
     {| table := table w;
        sequence := sequence w;
        now := now w;
        entropy := entropy w;
        drawn := S (drawn w);
        pending := [];
        flushed := [];
        trace := trace w ++ [HashPassword (PyStr password); SessionAdd;
                             SessionCommit] |}).
Proof.
  intros Hpending (u & Hu & Hclash).
  set (row := new_row pwd_context w username email password full_name
                is_active).
  assert (Hbad : constraints_ok (table w ++ [row]) = false).
  { destruct (constraints_ok (table w ++ [row])) eqn:Hok; [|done].
    apply constraints_ok_spec in Hok as (_ & Hname & Hmail & _).
    rewrite fmap_app in Hname, Hmail.
    apply NoDup_app in Hname as (_ & Hname & _).
    apply NoDup_app in Hmail as (_ & Hmail & _).
    destruct Hclash as [Hsame|Hsame].
    - destruct (Hname (PyStr username)).
      + rewrite <- Hsame. apply list_elem_of_fmap. eauto.
      + simpl. by apply list_elem_of_singleton.
    - destruct (Hmail (PyStr email)).
      + rewrite <- Hsame. apply list_elem_of_fmap. eauto.
      + simpl. by apply list_elem_of_singleton. }
  unfold UserRepository.add, UserRepository._hash_password, session_add,
    commit, refresh, stage, log, effect, mbind, M_bind, mret, M_ret. simpl.
  rewrite Hpending. simpl.
  change (insert_defaults _ _ _) with row.
  rewrite Hbad. simpl. by rewrite <- !app_assoc.
Qed.

(** X12.  When the store can take the row (nothing staged, constraints
    satisfied, username and email unused, next id unused),
    [UserRepository.add] returns the row it wrote: the next id of the
    sequence, the given username, email, full name and activity flag, the
    digest of the password under a freshly drawn salt, and the creation
    time of the store.  The row is appended to the table, the sequence
    advances by one, nothing stays staged and the table still satisfies its
    constraints. *)
Theorem add_stores_new_row :
  ∀ (pwd_context : CryptContext) (w : World)
    (username email password : string) (full_name : option string)
    (is_active : bool),
    accepts w username email →
    let row :=
      new_row pwd_context w username email password full_name is_active in
    ∃ w',
      UserRepository.add pwd_context username email password full_name
        is_active w = (Ok row, w')
      ∧ table w' = table w ++ [row]
      ∧ sequence w' = sequence w + 1
      ∧ drawn w' = S (drawn w)
      ∧ pending w' = []
      ∧ constraints_ok (table w') = true.
Proof.
  intros pwd_context w username email password full_name is_active Hacc row.
  eexists. split; [by apply add_accepted|]. simpl. split_and!; try done.
  destruct Hacc as (_ & Hok & Hname & Hmail & Hid).
  apply constraints_ok_snoc; done.
Qed.

Lemma add_stores_new_row_witness :
  let row :=
    new_row Fixture.pwd_context Fixture.world "erin" "erin@example.com"
      "Secret123" None true in
  ∃ w',
    UserRepository.add Fixture.pwd_context "erin" "erin@example.com"
      "Secret123" None true Fixture.world = (Ok row, w')
    ∧ table w' = table Fixture.world ++ [row]
    ∧ sequence w' = sequence Fixture.world + 1
    ∧ drawn w' = S (drawn Fixture.world)
    ∧ pending w' = []
    ∧ constraints_ok (table w') = true.
Proof.
  exact (add_stores_new_row Fixture.pwd_context Fixture.world "erin"
           "erin@example.com" "Secret123" None true fixture_accepts_erin).
Defined.

(** X13.  After such an [add], the lookups by the new id, by the new
    username and by the new email each return the row that was written,
    and a lookup by id that returned a row before returns the same row. *)
Theorem added_row_is_found :
  ∀ (pwd_context : CryptContext) (w : World)
    (username email password : string) (full_name : option string)
    (is_active : bool),
    accepts w username email →
    let row :=
      new_row pwd_context w username email password full_name is_active in
    let w' :=
      (UserRepository.add pwd_context username email password full_name
         is_active w).2 in
    (UserRepository.get_by_id (sequence w) w').1 = Ok (Some row)
    ∧ (UserRepository.get_by_username (PyStr username) w').1 = Ok (Some row)
    ∧ (UserRepository.get_by_email (PyStr email) w').1 = Ok (Some row)
    ∧ ∀ (user_id : Z) (u : User.t),
        (UserRepository.get_by_id user_id w).1 = Ok (Some u) →
        (UserRepository.get_by_id user_id w').1 = Ok (Some u).
Proof.
  intros pwd_context w username email password full_name is_active Hacc
    row w'.
  unfold w'. rewrite (add_accepted _ _ _ _ _ _ _ Hacc).
  destruct Hacc as (_ & _ & Hname & Hmail & Hid).
  unfold UserRepository.get_by_id, UserRepository.get_by_username,
    UserRepository.get_by_email.
  split_and!.
  - rewrite query_first_run. simpl. fold row.
    rewrite (find_snoc (λ u, User.getattr u "id" = Some (PyInt (sequence w))));
      [done| |done].
    intros u Hu [= Hsame]. by destruct (Hid u Hu).
  - rewrite query_first_run. simpl. fold row.
    rewrite (find_snoc
               (λ u, User.getattr u "username" = Some (PyStr username)));
      [done| |done].
    intros u Hu [= Hsame]. by destruct (Hname u Hu).
  - rewrite query_first_run. simpl. fold row.
    rewrite (find_snoc (λ u, User.getattr u "email" = Some (PyStr email)));
      [done| |done].
    intros u Hu [= Hsame]. by destruct (Hmail u Hu).
  - intros user_id u. rewrite !query_first_run. simpl.
    destruct (list_find _ (table w)) as [[i x]|] eqn:Hfind; [|done].
    simpl. intros [= ->].
    by rewrite (list_find_app_l _ _ _ _ _ Hfind).
Qed.

Lemma added_row_is_found_witness :
  let row :=
    new_row Fixture.pwd_context Fixture.world "erin" "erin@example.com"
      "Secret123" None true in
  let w' :=
    (UserRepository.add Fixture.pwd_context "erin" "erin@example.com"
       "Secret123" None true Fixture.world).2 in
  (UserRepository.get_by_id (sequence Fixture.world) w').1 = Ok (Some row)
  ∧ (UserRepository.get_by_username (PyStr "erin") w').1 = Ok (Some row)
  ∧ (UserRepository.get_by_email (PyStr "erin@example.com") w').1
    = Ok (Some row)
  ∧ ∀ (user_id : Z) (u : User.t),
      (UserRepository.get_by_id user_id Fixture.world).1 = Ok (Some u) →
      (UserRepository.get_by_id user_id w').1 = Ok (Some u).
Proof.
  exact (added_row_is_found Fixture.pwd_context Fixture.world "erin"
           "erin@example.com" "Secret123" None true fixture_accepts_erin).
Defined.

(** X14.  [UserRepository.add] does not look for duplicates itself: when a
    row already has the username or the email, the password is hashed and
    the row is staged, and it is the commit that fails, with
    [IntegrityError]; the table is unchanged and nothing stays staged. *)
Theorem add_duplicate_fails_at_commit :
  ∀ (pwd_context : CryptContext) (w : World)
    (username email password : string) (full_name : option string)
    (is_active : bool),
    pending w = [] →
    (∃ u, u ∈ table w
          ∧ (User.username u = PyStr username
             ∨ User.email u = PyStr email)) →
    ∃ w',
      UserRepository.add pwd_context username email password full_name
        is_active w = (Raise IntegrityError, w')
      ∧ table w' = table w
      ∧ pending w' = []
      ∧ drawn w' = S (drawn w)
      ∧ trace w' = trace w ++ [HashPassword (PyStr password); SessionAdd;
                               SessionCommit].
Proof.
  intros pwd_context w username email password full_name is_active
    Hpending Hclash.
  eexists. split; [by apply add_rejected|]. done.
Qed.

(** The test of the repository: a second user with the email of the
    first. *)
Lemma add_duplicate_fails_at_commit_witness :
  ∃ w',
    UserRepository.add Fixture.pwd_context "anotheruser" "carol@example.com"
      "password123" None true Fixture.world = (Raise IntegrityError, w')
    ∧ table w' = table Fixture.world
    ∧ pending w' = []
    ∧ drawn w' = S (drawn Fixture.world)
    ∧ trace w' = trace Fixture.world
                   ++ [HashPassword (PyStr "password123"); SessionAdd;
                       SessionCommit].
Proof.
  apply (add_duplicate_fails_at_commit Fixture.pwd_context Fixture.world
           "anotheruser" "carol@example.com" "password123" None true
           eq_refl).
  exists Fixture.carol. split; [apply carol_stored|by right].
Defined.

End AddRowProperties.
Section DeleteAndUpdate.
Import Passlib Py Models Database Repositories Services.

Implicit Types (w : World) (rows : list User.t) (u row user : User.t).

Lemma find_after_delete rows (i : nat) row (pk : value) :
  NoDup (User.id <$> rows) →
  list_find (λ u, User.id u = pk) rows = Some (i, row) →
  list_find (λ u, User.id u = pk) (delete i rows) = None.
Proof.
  intros Hnodup (Hi & Hid & _)%list_find_Some.
  apply list_find_None, Forall_forall. intros u Hu Hsame.
  apply list_elem_of_lookup in Hu as [j Hj].
  destruct (decide (j < i)%nat) as [Hlt|Hge].
  - rewrite list_lookup_delete_lt in Hj by done.
    assert (j = i); [|lia].
    eapply (NoDup_lookup _ j i pk Hnodup);
      rewrite list_lookup_fmap; [by rewrite Hj; simpl; f_equal
                                |by rewrite Hi; simpl; f_equal].
  - rewrite list_lookup_delete_ge in Hj by lia.
    assert (S j = i); [|lia].
    eapply (NoDup_lookup _ (S j) i pk Hnodup);
      rewrite list_lookup_fmap; [by rewrite Hj; simpl; f_equal
                                |by rewrite Hi; simpl; f_equal].
Qed.

(** X15.  After [UserRepository.delete] has removed the row of an id (from
    a table satisfying its constraints, with nothing staged), the lookup by
    that id returns [None], a second [delete] and a [delete_user] of the
    same id return false, nothing is staged and the constraints still
    hold. *)
Theorem deleted_user_is_gone :
  ∀ (user_id : Z) (w : World),
    pending w = [] →
    constraints_ok (table w) = true →
    (∃ u, u ∈ table w ∧ User.id u = PyInt user_id) →
    let w' := (UserRepository.delete user_id w).2 in
    (UserRepository.delete user_id w).1 = Ok true
    ∧ (UserRepository.get_by_id user_id w').1 = Ok None
    ∧ (UserRepository.delete user_id w').1 = Ok false
    ∧ (UserService.delete_user user_id w').1 = Ok false
    ∧ pending w' = []
    ∧ constraints_ok (table w') = true.
Proof.
  intros user_id w Hpending Hok Hstored w'.
  destruct (find_stored _ _ Hstored) as (i & row & Hfind).
  pose proof Hok as (Hnodup & _)%constraints_ok_spec.
  unfold w'. rewrite (delete_found user_id w i row Hpending Hok Hfind).
  cbn [fst snd].
  match goal with |- context [UserRepository.get_by_id _ ?w0] =>
    set (w1 := w0) end.
  assert (Hgone : list_find (λ u, User.id u = PyInt user_id) (table w1)
                  = None)
    by exact (find_after_delete _ _ _ _ Hnodup Hfind).
  split_and!.
  - done.
  - unfold UserRepository.get_by_id. rewrite query_first_run, find_by_id.
    by rewrite Hgone.
  - by rewrite (delete_absent _ _ Hgone).
  - rewrite delete_user_run. by rewrite Hgone.
  - done.
  - by apply constraints_ok_delete.
Qed.

Lemma dave_stored :
  ∃ u, u ∈ table Fixture.world ∧ User.id u = PyInt 2.
Proof. apply fixture_rows. by right. Qed.

Lemma deleted_user_is_gone_witness :
  let w' := (UserRepository.delete 2 Fixture.world).2 in
  (UserRepository.delete 2 Fixture.world).1 = Ok true
  ∧ (UserRepository.get_by_id 2 w').1 = Ok None
  ∧ (UserRepository.delete 2 w').1 = Ok false
  ∧ (UserService.delete_user 2 w').1 = Ok false
  ∧ pending w' = []
  ∧ constraints_ok (table w') = true.
Proof.
  exact (deleted_user_is_gone 2 Fixture.world eq_refl eq_refl dave_stored).
Defined.




End DeleteAndUpdate.
Section UpdateCalls.
Import Passlib Py Models Database Repositories Services.

Implicit Types (w : World) (rows : list User.t) (u row user : User.t).

Lemma update_step_trace pwd_context st key (v : value) w :
  ∃ hashes,
    trace (UserRepository.update_step pwd_context st key v w).2
      = trace w ++ hashes
    ∧ Forall is_hash hashes.
Proof.
  unfold UserRepository.update_step.
  destruct (key =? "password")%string.
  - destruct (is_not_None v); [|exists []; by rewrite app_nil_r].
    exists [HashPassword v]. split; [|repeat constructor; by exists v].
    unfold UserRepository._hash_password, log, effect, raise, mbind, M_bind.
    simpl. destruct v; simpl; try done. by destruct (ne _ _).
  - exists []. rewrite app_nil_r. split; [|done].
    destruct (_ && _); [|done].
    destruct (User.getattr _ _); [|done]. by destruct (ne _ _).
Qed.

Lemma update_loop_trace pwd_context kwargs st w :
  ∃ hashes,
    trace (UserRepository.update_loop pwd_context kwargs st w).2
      = trace w ++ hashes
    ∧ Forall is_hash hashes.
Proof.
  revert st w. induction kwargs as [|[key v] rest IH]; intros st w.
  - exists []. by rewrite app_nil_r.
  - simpl. unfold mbind, M_bind.
    destruct (update_step_trace pwd_context st key v w)
      as (hashes & Htrace & Hhashes).
    destruct (UserRepository.update_step pwd_context st key v w)
      as [[st1|e] w1]; simpl in Htrace.
    + destruct (IH st1 w1) as (hashes' & Htrace' & Hhashes').
      exists (hashes ++ hashes'). split; [|by apply Forall_app].
      by rewrite Htrace', Htrace, app_assoc.
    + by exists hashes.
Qed.

Lemma persist_trace (pk : value) assignments w :
  trace (persist pk assignments w).2
    = trace w ++ [SessionAdd; SessionCommit]
  ∨ trace (persist pk assignments w).2
    = trace w ++ [SessionAdd; SessionCommit; SessionRefresh].
Proof.
  unfold persist, session_add, commit, refresh, stage, log, effect, mbind,
    M_bind, mret, M_ret. simpl.
  destruct (flush _ _ _ _) as [[[rows seq] keys]|e]; simpl.
  - destruct (constraints_ok rows); simpl.
    + right.
      destruct (keys !! _) as [key|]; simpl;
        [destruct (list_find _ _) as [[? ?]|]; simpl|];
        by rewrite <- !app_assoc.
    + left. by rewrite <- !app_assoc.
  - left. by rewrite <- !app_assoc.
Qed.

End UpdateCalls.

(** X17.  Whatever the field map, the calls [update] makes are: calls of
    the hasher, then either nothing at all, or one [add] and one [commit]
    of the session, followed by a [refresh] when the commit succeeded.  It
    never queries, never deletes and never commits twice. *)
Theorem update_commits_at_most_once :
  ∀ (pwd_context : Passlib.CryptContext) (user : Models.User.t)
    (kwargs : list (string * Py.value)) (w : Database.World),
    ∃ hashes tail,
      Database.trace
        (Repositories.UserRepository.update pwd_context user kwargs w).2
      = Database.trace w ++ hashes ++ tail
      ∧ Forall is_hash hashes
      ∧ (tail = []
         ∨ tail = [Database.SessionAdd; Database.SessionCommit]
         ∨ tail = [Database.SessionAdd; Database.SessionCommit;
                   Database.SessionRefresh]).
Proof.
  intros pwd_context user kwargs w. rewrite update_run.
  destruct (update_loop_trace pwd_context kwargs
              {| Repositories.UserRepository.user := user;
                 Repositories.UserRepository.updated := false;
                 Repositories.UserRepository.assignments := [] |} w)
    as (hashes & Htrace & Hhashes).
  destruct (Repositories.UserRepository.update_loop _ _ _ _)
    as [[st|e] w1]; simpl in Htrace.
  - destruct (Repositories.UserRepository.updated st).
    + destruct (persist_trace (Models.User.id user)
                  (Repositories.UserRepository.assignments st) w1)
        as [Htail|Htail]; rewrite Htail, Htrace, <- app_assoc;
        eexists hashes, _; (split; [reflexivity|]); split; auto.
    + exists hashes, []. simpl. rewrite app_nil_r. auto.
  - exists hashes, []. simpl. rewrite app_nil_r. auto.
Qed.
Section UpdateClash.
Import Passlib Py Models Database Repositories Services.

Implicit Types (w : World) (rows : list User.t) (u row user other : User.t).

Lemma update_email_clash pwd_context w user other (v : value) :
  pending w = [] →
  constraints_ok (table w) = true →
  user ∈ table w → other ∈ table w →
  User.email other = v →
  ne (User.email user) v = true →
  (UserRepository.update pwd_context user [("email", v)] w).1
    = Raise IntegrityError
  ∧ table (UserRepository.update pwd_context user [("email", v)] w).2
    = table w.
Proof.
  intros Hpending Hok Huser Hother Hsame Hne.
  pose proof Hok as (Hnodup & _)%constraints_ok_spec.
  destruct (stored_index _ _ Huser Hnodup) as (i & Hi & Hfind).
  pose proof (stored_not_null _ _ Hok Hother) as Hnn.
  unfold not_null in Hnn. rewrite !andb_True in Hnn.
  destruct Hnn as (((_ & Hnn_name) & Hnn_mail) & _).
  assert (Hvalue : is_not_None v = true)
    by (rewrite <- Hsame; by apply Is_true_true).
  assert (Hdiff : User.email user ≠ v).
  { intros Heq. unfold ne in Hne. by rewrite Heq, eq_refl_value in Hne. }
  rewrite update_run.
  unfold UserRepository.update_loop, UserRepository.update_step,
    User.hasattr, User.getattr, mbind, M_bind, mret, M_ret.
  simpl. rewrite Hvalue, Hne. simpl.
  pose proof (persist_run (User.id user) [("email", v)] w Hpending) as Hrun.
  rewrite Hfind in Hrun. cbv zeta in Hrun.
  set (row' := on_update (now w) [("email", v)]
                 (assign user [("email", v)])) in *.
  destruct (constraints_ok (<[i := row']> (table w))) eqn:Hok'; [|done].
  exfalso.
  apply constraints_ok_spec in Hok' as (_ & Hname & Hmail & _).
  apply list_elem_of_lookup in Hother as [j Hj].
  assert (Hij : i ≠ j) by (intros ->; congruence).
  assert (i = j); [|done].
  apply (NoDup_lookup (User.email <$> <[i := row']> (table w)) i j v);
    [done| |].
  - rewrite list_lookup_fmap, list_lookup_insert_eq;
      [done|by eapply lookup_lt_Some].
  - rewrite list_lookup_fmap, list_lookup_insert_ne, Hj by done.
    simpl. by rewrite Hsame.
Qed.

Lemma update_username_clash pwd_context w user other (v : value) :
  pending w = [] →
  constraints_ok (table w) = true →
  user ∈ table w → other ∈ table w →
  User.username other = v →
  ne (User.username user) v = true →
  (UserRepository.update pwd_context user [("username", v)] w).1
    = Raise IntegrityError
  ∧ table (UserRepository.update pwd_context user [("username", v)] w).2
    = table w.
Proof.
  intros Hpending Hok Huser Hother Hsame Hne.
  pose proof Hok as (Hnodup & _)%constraints_ok_spec.
  destruct (stored_index _ _ Huser Hnodup) as (i & Hi & Hfind).
  pose proof (stored_not_null _ _ Hok Hother) as Hnn.
  unfold not_null in Hnn. rewrite !andb_True in Hnn.
  destruct Hnn as (((_ & Hnn_name) & Hnn_mail) & _).
  assert (Hvalue : is_not_None v = true)
    by (rewrite <- Hsame; by apply Is_true_true).
  assert (Hdiff : User.username user ≠ v).
  { intros Heq. unfold ne in Hne. by rewrite Heq, eq_refl_value in Hne. }
  rewrite update_run.
  unfold UserRepository.update_loop, UserRepository.update_step,
    User.hasattr, User.getattr, mbind, M_bind, mret, M_ret.
  simpl. rewrite Hvalue, Hne. simpl.
  pose proof (persist_run (User.id user) [("username", v)] w Hpending) as Hrun.
  rewrite Hfind in Hrun. cbv zeta in Hrun.
  set (row' := on_update (now w) [("username", v)]
                 (assign user [("username", v)])) in *.
  destruct (constraints_ok (<[i := row']> (table w))) eqn:Hok'; [|done].
  exfalso.
  apply constraints_ok_spec in Hok' as (_ & Hname & Hmail & _).
  apply list_elem_of_lookup in Hother as [j Hj].
  assert (Hij : i ≠ j) by (intros ->; congruence).
  assert (i = j); [|done].
  apply (NoDup_lookup (User.username <$> <[i := row']> (table w)) i j v);
    [done| |].
  - rewrite list_lookup_fmap, list_lookup_insert_eq;
      [done|by eapply lookup_lt_Some].
  - rewrite list_lookup_fmap, list_lookup_insert_ne, Hj by done.
    simpl. by rewrite Hsame.
Qed.

End UpdateClash.

(** X18.  [UserRepository.update] does not look for duplicates itself
    either: giving a stored user the username, or the email, that another
    row holds makes the commit fail with [IntegrityError], and the table is
    unchanged. *)
Theorem update_duplicate_fails_at_commit :
  ∀ (pwd_context : Passlib.CryptContext) (w : Database.World)
    (user other : Models.User.t),
    Database.pending w = [] →
    Database.constraints_ok (Database.table w) = true →
    user ∈ Database.table w → other ∈ Database.table w →
    (Py.ne (Models.User.username user) (Models.User.username other) = true →
       (Repositories.UserRepository.update pwd_context user
          [("username", Models.User.username other)] w).1
         = Database.Raise Database.IntegrityError
       ∧ Database.table
           (Repositories.UserRepository.update pwd_context user
              [("username", Models.User.username other)] w).2
         = Database.table w)
    ∧ (Py.ne (Models.User.email user) (Models.User.email other) = true →
         (Repositories.UserRepository.update pwd_context user
            [("email", Models.User.email other)] w).1
           = Database.Raise Database.IntegrityError
         ∧ Database.table
             (Repositories.UserRepository.update pwd_context user
                [("email", Models.User.email other)] w).2
           = Database.table w).
Proof.
  intros pwd_context w user other Hpending Hok Huser Hother. split.
  - intros Hne. by eapply update_username_clash.
  - intros Hne. by eapply update_email_clash.
Qed.

Lemma dave_in_table : Fixture.dave ∈ Database.table Fixture.world.
Proof. apply elem_of_cons. right. apply elem_of_cons. by left. Qed.

(** [carol] is given the username, then the email, of [dave]. *)
Lemma update_duplicate_fails_at_commit_witness :
  ((Repositories.UserRepository.update Fixture.pwd_context Fixture.carol
      [("username", Py.PyStr "dave")] Fixture.world).1
     = Database.Raise Database.IntegrityError
   ∧ Database.table
       (Repositories.UserRepository.update Fixture.pwd_context Fixture.carol
          [("username", Py.PyStr "dave")] Fixture.world).2
     = Database.table Fixture.world)
  ∧ ((Repositories.UserRepository.update Fixture.pwd_context Fixture.carol
        [("email", Py.PyStr "dave@example.com")] Fixture.world).1
       = Database.Raise Database.IntegrityError
     ∧ Database.table
         (Repositories.UserRepository.update Fixture.pwd_context
            Fixture.carol [("email", Py.PyStr "dave@example.com")]
            Fixture.world).2
       = Database.table Fixture.world).
Proof.
  destruct (update_duplicate_fails_at_commit Fixture.pwd_context
              Fixture.world Fixture.carol Fixture.dave eq_refl eq_refl
              carol_stored dave_in_table) as [Hname Hmail].
  split; [exact (Hname eq_refl)|exact (Hmail eq_refl)].
Defined.
(** * Further properties of the service *)

Section ServiceRuns.
Import Passlib Py Models Database Repositories Services.

Implicit Types (w : World) (rows : list User.t) (u row user other : User.t).

Lemma create_user_run pwd_context username email password full_name
    is_active w :
  UserService.create_user pwd_context username email password full_name
    is_active w
  = match list_find (λ u, User.username u = PyStr username) (table w) with
    | Some _ =>
        (Raise (ValueError
                  ("Username '" +:+ username +:+ "' is already taken.")),
         traced w [Select "username" (PyStr username)])
    | None =>
        match list_find (λ u, User.email u = PyStr email) (table w) with
        | Some _ =>
            (Raise (ValueError
                      ("Email '" +:+ email +:+ "' is already registered.")),
             traced w [Select "username" (PyStr username);
                       Select "email" (PyStr email)])
        | None =>
            match
              UserRepository.add pwd_context username email password
                full_name is_active
                (traced w [Select "username" (PyStr username);
                           Select "email" (PyStr email)])
            with
            | (Ok created_user, w') => (Ok created_user, w')
            | (Raise e, w') => (Raise e, w')
            end
        end
    end.
Proof.
  unfold UserService.create_user, UserRepository.get_by_username,
    UserRepository.get_by_email.
  unfold mbind at 1. unfold M_bind at 1.
  rewrite query_first_run.
  rewrite (list_find_ext _ (λ u, User.username u = PyStr username))
    by (intros u; unfold User.getattr; simpl; split; congruence).
  destruct (list_find (λ u, User.username u = PyStr username) _)
    as [[i u]|]; [reflexivity|]. simpl.
  unfold mbind at 1. unfold M_bind at 1.
  rewrite query_first_run, traced_traced.
  rewrite (list_find_ext _ (λ u, User.email u = PyStr email))
    by (intros u; unfold User.getattr; simpl; split; congruence).
  simpl table.
  destruct (list_find (λ u, User.email u = PyStr email) _)
    as [[i u]|]; reflexivity.
Qed.

Lemma check_unique_skipped (user_id : Z) (new_value current : value)
    (lookup : value → M (option User.t)) (message : string) w :
  rechecked new_value current = false →
  UserService.check_unique user_id new_value current lookup message w
  = (Ok tt, w).
Proof.
  unfold rechecked, UserService.check_unique. by intros ->.
Qed.

Lemma check_unique_taken (user_id : Z) (new_value current : value)
    (column message : string) w (i : nat) existing :
  rechecked new_value current = true →
  list_find (λ u, User.getattr u column = Some new_value) (table w)
    = Some (i, existing) →
  ne (User.id existing) (PyInt user_id) = true →
  UserService.check_unique user_id new_value current (query_first column)
    message w
  = (Raise (ValueError message), traced w [Select column new_value]).
Proof.
  unfold rechecked, UserService.check_unique. intros -> Hfind Hother.
  unfold mbind, M_bind. rewrite query_first_run, Hfind. simpl.
  by rewrite Hother.
Qed.

Lemma update_user_run pwd_context (user_id : Z) kwargs w :
  UserService.update_user pwd_context user_id kwargs w
  = let w1 := traced w [Select "id" (PyInt user_id)] in
    match list_find (λ u, User.id u = PyInt user_id) (table w) with
    | None => (Ok None, w1)
    | Some (_, user) =>
        match
          UserService.check_unique user_id (get kwargs "username")
            (User.username user) (query_first "username")
            ("Username '" +:+ str (get kwargs "username")
               +:+ "' is already taken.") w1
        with
        | (Raise e, w2) => (Raise e, w2)
        | (Ok _, w2) =>
            match
              UserService.check_unique user_id (get kwargs "email")
                (User.email user) (query_first "email")
                ("Email '" +:+ str (get kwargs "email")
                   +:+ "' is already registered.") w2
            with
            | (Raise e, w3) => (Raise e, w3)
            | (Ok _, w3) =>
                found (UserRepository.update pwd_context user kwargs w3)
            end
        end
    end.
Proof.
  unfold UserService.update_user, UserRepository.get_by_id.
  unfold mbind at 1. unfold M_bind at 1.
  rewrite query_first_run, find_by_id. cbv zeta.
  destruct (list_find _ (table w)) as [[i user]|]; [|done]. simpl.
  unfold mbind at 1. unfold M_bind at 1.
  unfold UserRepository.get_by_username.
  change (λ username : value, query_first "username" username)
    with (query_first "username").
  destruct (UserService.check_unique user_id (get kwargs "username") _ _ _ _)
    as [[[]|e] w2]; [|done].
  unfold mbind at 1. unfold M_bind at 1.
  unfold UserRepository.get_by_email.
  change (λ email : value, query_first "email" email)
    with (query_first "email").
  destruct (UserService.check_unique user_id (get kwargs "email") _ _ _ _)
    as [[[]|e] w3]; [|done].
  unfold mbind, M_bind, found.
  by destruct (UserRepository.update pwd_context user kwargs w3)
    as [[u'|e] w4].
Qed.

End ServiceRuns.
Section ServiceProperties.
Import Passlib Py Models Database Repositories Services.

Implicit Types (w : World) (rows : list User.t) (u row user other : User.t).

Lemma first_holder (f : User.t → value) rows row :
  NoDup (f <$> rows) → row ∈ rows →
  ∃ i, list_find (λ u, f u = f row) rows = Some (i, row).
Proof.
  intros Hnodup [i Hi]%list_elem_of_lookup. exists i.
  apply list_find_Some. split_and!; [done..|].
  intros j y Hj Hlt Hsame.
  assert (j = i); [|lia].
  apply (NoDup_lookup _ j i (f row) Hnodup);
    rewrite list_lookup_fmap; [by rewrite Hj; simpl; f_equal|by rewrite Hi].
Qed.

(** X19.  When the store can take the row, [create_user] returns the row
    the repository wrote and the table gains exactly that row; [get_user]
    with the new id then returns it, a further [create_user] under the same
    username raises "Username '...' is already taken.", and one under
    another, unused username with the same email raises "Email '...' is
    already registered.". *)
Theorem create_user_then_duplicates_rejected :
  ∀ (pwd_context : CryptContext) (w : World)
    (username email password : string) (full_name : option string)
    (is_active : bool),
    accepts w username email →
    let row :=
      new_row pwd_context w username email password full_name is_active in
    ∃ w',
      UserService.create_user pwd_context username email password full_name
        is_active w = (Ok row, w')
      ∧ table w' = table w ++ [row]
      ∧ (UserService.get_user (sequence w) w').1 = Ok (Some row)
      ∧ (∀ email' password' full_name' is_active',
           (UserService.create_user pwd_context username email' password'
              full_name' is_active' w').1
           = Raise (ValueError
                      ("Username '" +:+ username +:+ "' is already taken.")))
      ∧ (∀ username' password' full_name' is_active',
           (∀ u, u ∈ table w' → User.username u ≠ PyStr username') →
           (UserService.create_user pwd_context username' email password'
              full_name' is_active' w').1
           = Raise (ValueError
                      ("Email '" +:+ email +:+ "' is already registered."))).
Proof.
  intros pwd_context w username email password full_name is_active Hacc row.
  pose proof Hacc as (_ & _ & Hname & Hmail & Hid).
  rewrite create_user_run.
  rewrite (find_absent (λ u, User.username u = PyStr username) (table w))
    by (intros (u & Hu & Hsame); by destruct (Hname u Hu)).
  rewrite (find_absent (λ u, User.email u = PyStr email) (table w))
    by (intros (u & Hu & Hsame); by destruct (Hmail u Hu)).
  rewrite (add_accepted pwd_context
             (traced w [Select "username" (PyStr username);
                        Select "email" (PyStr email)])
             username email password full_name is_active Hacc).
  change (new_row pwd_context (traced w _) username email password full_name
            is_active) with row.
  eexists. split; [reflexivity|]. cbn [table sequence traced].
  match goal with |- context [UserService.get_user _ ?w0] =>
    set (w1 := w0) end.
  assert (Hrow : row ∈ table w1).
  { apply elem_of_app. right. by apply list_elem_of_singleton. }
  split_and!.
  - done.
  - unfold UserService.get_user, UserRepository.get_by_id.
    rewrite query_first_run, find_by_id. simpl.
    by rewrite (find_snoc (λ u, User.id u = PyInt (sequence w))
                  (table w) row Hid eq_refl).
  - intros email' password' full_name' is_active'.
    rewrite create_user_run.
    destruct (find_stored (λ u, User.username u = PyStr username) (table w1))
      as (i & holder & ->); [|done].
    by exists row.
  - intros username' password' full_name' is_active' Hfree.
    rewrite create_user_run.
    rewrite (find_absent (λ u, User.username u = PyStr username') (table w1))
      by (intros (u & Hu & Hsame); by destruct (Hfree u Hu)).
    destruct (find_stored (λ u, User.email u = PyStr email) (table w1))
      as (i & holder & ->); [|done].
    by exists row.
Qed.

Lemma create_user_then_duplicates_rejected_witness :
  let row :=
    new_row Fixture.pwd_context Fixture.world "erin" "erin@example.com"
      "Secret123" None true in
  ∃ w',
    UserService.create_user Fixture.pwd_context "erin" "erin@example.com"
      "Secret123" None true Fixture.world = (Ok row, w')
    ∧ table w' = table Fixture.world ++ [row]
    ∧ (UserService.get_user (sequence Fixture.world) w').1 = Ok (Some row)
    ∧ (∀ email' password' full_name' is_active',
         (UserService.create_user Fixture.pwd_context "erin" email'
            password' full_name' is_active' w').1
         = Raise (ValueError ("Username '" +:+ "erin"
                                +:+ "' is already taken.")))
    ∧ (∀ username' password' full_name' is_active',
         (∀ u, u ∈ table w' → User.username u ≠ PyStr username') →
         (UserService.create_user Fixture.pwd_context username'
            "erin@example.com" password' full_name' is_active' w').1
         = Raise (ValueError ("Email '" +:+ "erin@example.com"
                                +:+ "' is already registered."))).
Proof.
  exact (create_user_then_duplicates_rejected Fixture.pwd_context
           Fixture.world "erin" "erin@example.com" "Secret123" None true
           fixture_accepts_erin).
Defined.

(** X20.  [update_user] for an id no row has returns [None] after its one
    query by id: nothing is hashed, staged or written, and the field map is
    not looked at. *)
Theorem update_user_unknown_id :
  ∀ (pwd_context : CryptContext) (user_id : Z)
    (kwargs : list (string * value)) (w : World),
    (∀ u, u ∈ table w → User.id u ≠ PyInt user_id) →
    UserService.update_user pwd_context user_id kwargs w
    = (Ok None, traced w [Select "id" (PyInt user_id)]).
Proof.
  intros pwd_context user_id kwargs w Hnone.
  rewrite update_user_run. cbv zeta.
  rewrite (find_absent (λ u, User.id u = PyInt user_id) (table w)); [done|].
  intros (u & Hu & Hsame). by destruct (Hnone u Hu).
Qed.

Lemma update_user_unknown_id_witness :
  UserService.update_user Fixture.pwd_context 7
    [("email", PyStr "nobody@example.com")] Fixture.world
  = (Ok None, traced Fixture.world [Select "id" (PyInt 7)]).
Proof.
  apply update_user_unknown_id.
  intros u Hu Hsame.
  assert (Hex : ∃ u, u ∈ table Fixture.world ∧ User.id u = PyInt 7)
    by eauto.
  apply fixture_rows in Hex as [H|H]; discriminate H.
Defined.

(** X21.  For a stored user, in a table satisfying its constraints:
    [update_user] with a username that is being changed (truthy and not the
    current one) and that another row holds raises "Username '...' is
    already taken." after its two queries; and when the username is not
    being changed, with an email that is being changed and that another row
    holds it raises "Email '...' is already registered." after its two
    queries.  In both cases nothing is hashed, staged or written. *)
Theorem update_user_rejects_taken_values :
  ∀ (pwd_context : CryptContext) (user_id : Z)
    (kwargs : list (string * value)) (w : World) (user other : User.t),
    constraints_ok (table w) = true →
    user ∈ table w → User.id user = PyInt user_id →
    other ∈ table w → ne (User.id other) (PyInt user_id) = true →
    (get kwargs "username" = User.username other →
     rechecked (User.username other) (User.username user) = true →
     UserService.update_user pwd_context user_id kwargs w
     = (Raise (ValueError
                 ("Username '" +:+ str (User.username other)
                    +:+ "' is already taken.")),
        traced w [Select "id" (PyInt user_id);
                  Select "username" (User.username other)]))
    ∧ (rechecked (get kwargs "username") (User.username user) = false →
       get kwargs "email" = User.email other →
       rechecked (User.email other) (User.email user) = true →
       UserService.update_user pwd_context user_id kwargs w
       = (Raise (ValueError
                   ("Email '" +:+ str (User.email other)
                      +:+ "' is already registered.")),
          traced w [Select "id" (PyInt user_id);
                    Select "email" (User.email other)])).
Proof.
  intros pwd_context user_id kwargs w user other Hok Huser Hid Hother Hne.
  pose proof Hok as (Hids & Hnames & Hmails & _)%constraints_ok_spec.
  destruct (first_holder User.id _ _ Hids Huser) as [i Hfind].
  rewrite Hid in Hfind.
  destruct (first_holder User.username _ _ Hnames Hother) as [j Hname].
  destruct (first_holder User.email _ _ Hmails Hother) as [k Hmail].
  split.
  - intros Hnew Hchanged. rewrite update_user_run. cbv zeta.
    rewrite Hfind, Hnew.
    rewrite (check_unique_taken user_id _ _ "username" _ _ j other
               Hchanged); [by rewrite traced_traced| |done].
    rewrite <- Hname. apply list_find_ext. intros u.
    unfold User.getattr. simpl. split; congruence.
  - intros Hsame Hnew Hchanged. rewrite update_user_run. cbv zeta.
    rewrite Hfind, (check_unique_skipped _ _ _ _ _ _ Hsame), Hnew.
    rewrite (check_unique_taken user_id _ _ "email" _ _ k other
               Hchanged); [by rewrite traced_traced| |done].
    rewrite <- Hmail. apply list_find_ext. intros u.
    unfold User.getattr. simpl. split; congruence.
Qed.

(** [carol] (id 1) asks for the username, then for the email, of [dave]. *)
Lemma update_user_rejects_taken_values_witness :
  UserService.update_user Fixture.pwd_context 1
    [("username", PyStr "dave"); ("password", PyStr "newpassword")]
    Fixture.world
  = (Raise (ValueError "Username 'dave' is already taken."),
     traced Fixture.world
       [Select "id" (PyInt 1); Select "username" (PyStr "dave")])
  ∧ UserService.update_user Fixture.pwd_context 1
      [("email", PyStr "dave@example.com"); ("username", PyStr "carol")]
      Fixture.world
    = (Raise (ValueError "Email 'dave@example.com' is already registered."),
       traced Fixture.world
         [Select "id" (PyInt 1); Select "email" (PyStr "dave@example.com")]).
Proof.
  split.
  - exact (proj1 (update_user_rejects_taken_values Fixture.pwd_context 1
                    [("username", PyStr "dave");
                     ("password", PyStr "newpassword")]
                    Fixture.world Fixture.carol Fixture.dave eq_refl
                    carol_stored eq_refl dave_in_table eq_refl)
             eq_refl eq_refl).
  - exact (proj2 (update_user_rejects_taken_values Fixture.pwd_context 1
                    [("email", PyStr "dave@example.com");
                     ("username", PyStr "carol")]
                    Fixture.world Fixture.carol Fixture.dave eq_refl
                    carol_stored eq_refl dave_in_table eq_refl)
             eq_refl eq_refl eq_refl).
Defined.

(** X22.  For a stored user, in a table satisfying its constraints, when
    neither the username nor the email is being changed (the entry is
    absent, falsy or equal to the current value), [update_user] makes no
    uniqueness query: after its query by id it runs the repository's
    [update] on the row and returns what that returns. *)
Theorem update_user_unchanged_names_delegates :
  ∀ (pwd_context : CryptContext) (user_id : Z)
    (kwargs : list (string * value)) (w : World) (user : User.t),
    constraints_ok (table w) = true →
    user ∈ table w → User.id user = PyInt user_id →
    rechecked (get kwargs "username") (User.username user) = false →
    rechecked (get kwargs "email") (User.email user) = false →
    UserService.update_user pwd_context user_id kwargs w
    = found (UserRepository.update pwd_context user kwargs
               (traced w [Select "id" (PyInt user_id)])).
Proof.
  intros pwd_context user_id kwargs w user Hok Huser Hid Hname Hmail.
  pose proof Hok as (Hids & _)%constraints_ok_spec.
  destruct (first_holder User.id _ _ Hids Huser) as [i Hfind].
  rewrite Hid in Hfind.
  rewrite update_user_run. cbv zeta. rewrite Hfind.
  by rewrite (check_unique_skipped _ _ _ _ _ _ Hname),
    (check_unique_skipped _ _ _ _ _ _ Hmail).
Qed.

Lemma update_user_unchanged_names_delegates_witness :
  UserService.update_user Fixture.pwd_context 1
    [("full_name", PyStr "Carol D"); ("username", PyStr "carol");
     ("email", PyStr "")] Fixture.world
  = found (UserRepository.update Fixture.pwd_context Fixture.carol
             [("full_name", PyStr "Carol D"); ("username", PyStr "carol");
              ("email", PyStr "")]
             (traced Fixture.world [Select "id" (PyInt 1)])).
Proof.
  exact (update_user_unchanged_names_delegates Fixture.pwd_context 1
           [("full_name", PyStr "Carol D"); ("username", PyStr "carol");
            ("email", PyStr "")]
           Fixture.world Fixture.carol eq_refl carol_stored eq_refl
           eq_refl eq_refl).
Defined.

End ServiceProperties.
